(** * umlaut_kb: a shallow embedding of [umlaut_kb.c]

    The driver of the 4-key umlaut keyboard is a handful of entry points
    that the USB core and the input core call: probe, disconnect, suspend,
    resume, open, close and the completion handler of its interrupt URB.
    Every one of them is straight-line C over three heap objects (the
    session [struct umlaut_kb_data], the [struct input_dev] and the
    [struct urb]) and a sequence of calls into the kernel.

    The embedding keeps that shape.  An entry point is a computation in a
    small monad [K] that reads the answers of the fallible kernel calls
    from an environment, threads the heap, writes the calls it makes to a
    trace, and faults on a dereference of a pointer whose object is gone.
    Locks are recorded as calls only: the model is sequential. *)

From Stdlib Require Import ZArith List String Bool Lia.
Import ListNotations.

Local Open Scope string_scope.
Local Open Scope list_scope.
Local Open Scope Z_scope.

(** ** Constants of the kernel headers the driver includes

    Values of [<linux/input-event-codes.h>] and [<asm-generic/errno*.h>];
    the driver only uses them by name. *)
Module Linux.

Definition EV_KEY : Z := 1.

Definition KEY_Q : Z := 16.
Definition KEY_Y : Z := 21.
Definition KEY_P : Z := 25.
Definition KEY_S : Z := 31.
Definition KEY_RIGHTALT : Z := 100.

Definition ENOENT : Z := 2.
Definition ENOMEM : Z := 12.
Definition ENODEV : Z := 19.
Definition EOVERFLOW : Z := 75.
Definition ECONNRESET : Z := 104.
Definition ESHUTDOWN : Z := 108.

End Linux.
Import Linux.

(** ** Constants of the driver *)

Definition UMLAUT_KB_INTERFACE_PROTOCOL : Z := 0xDE.
Definition EP_NUM : Z := 0x81.
Definition EP_BUF_SIZE : Z := 8.
Definition SCAN_BASE : Z := 0x1E.

Definition keycodes : list Z :=
  [ KEY_Q  (* a umlaut *)
  ; KEY_P  (* o umlaut *)
  ; KEY_Y  (* u umlaut *)
  ; KEY_S  (* eszett *) ].

Definition ARRAY_SIZE (a : list Z) : Z := Z.of_nat (List.length a).

(** ** Heap objects

    One physical attachment has one object of each kind, so a pointer is
    either [NULL] or the address of that object. *)

Inductive ptr : Type := NULL | ADDR.

Definition is_null (p : ptr) : bool :=
  match p with NULL => true | ADDR => false end.

(** [struct umlaut_kb_data].  The two locks carry no data the driver reads;
    taking and releasing them shows in the trace. *)
Record umlaut_kb_data : Type := mk_data {
  udev : ptr;
  interface : ptr;
  input : ptr;
  phys : string;
  bulk_in_urb : ptr;
  bulk_in_buffer : list Z;
  kref : Z
}.

(** The fields of [struct input_dev] the driver touches. *)
Record input_dev : Type := mk_input {
  name : string;
  input_phys : ptr;
  id_from_usb : bool;
  parent : ptr;
  drvdata : ptr;
  has_open : bool;
  has_close : bool;
  evbit : list Z;
  keybit : list Z;
  users : Z;
  registered : bool
}.

(** The fields of [struct urb] the driver touches. *)
Record urb : Type := mk_urb {
  status : Z;
  urb_context : ptr;
  pipe_endpoint : Z;
  transfer_buffer_length : Z;
  has_complete : bool;
  interval : Z
}.

Record kstate : Type := mk_kstate {
  dev_mem : option umlaut_kb_data;
  input_mem : option input_dev;
  urb_mem : option urb;
  intfdata : ptr
}.

(** What the kernel answers to the calls that can fail. *)
Record kernel_env : Type := mk_env {
  kzalloc_ok : bool;
  usb_alloc_urb_ok : bool;
  input_allocate_device_ok : bool;
  input_register_device_ret : Z;
  usb_autopm_get_interface_ret : Z;
  usb_submit_urb_ret : Z;
  usb_path : string
}.

(** The calls into the kernel that act outside the three objects. *)
Inductive call : Type :=
| Kzalloc (p : ptr)
| Kfree
| Usb_get_dev
| Usb_put_dev (p : ptr)
| Usb_alloc_urb (p : ptr)
| Usb_free_urb (p : ptr)
| Usb_submit_urb (ret : Z)
| Usb_kill_urb
| Usb_autopm_get_interface (ret : Z)
| Usb_autopm_put_interface
| Input_allocate_device (p : ptr)
| Input_register_device (ret : Z)
| Input_unregister_device
| Input_free_device (p : ptr)
| Input_report_key (code : Z) (value : Z)
| Input_sync
| Spin_lock_irqsave
| Spin_unlock_irqrestore
| Mutex_lock
| Mutex_unlock
| Dev_err (fmt : string) (args : list Z)
| Dev_dbg (fmt : string) (args : list Z)
| Dev_info (fmt : string).

(** ** The monad *)

Definition K (A : Type) : Type :=
  kernel_env -> kstate -> option (A * kstate * list call).

Definition ret {A} (a : A) : K A :=
  fun _ s => Some (a, s, []).

Definition bind {A B} (m : K A) (f : A -> K B) : K B :=
  fun e s =>
    match m e s with
    | None => None
    | Some (a, s1, t1) =>
        match f a e s1 with
        | None => None
        | Some (b, s2, t2) => Some (b, s2, t1 ++ t2)
        end
    end.

Declare Scope kernel_scope.
Delimit Scope kernel_scope with kernel.
Notation "x <- m ;; k" := (bind m (fun x => k))
  (at level 100, m at next level, right associativity) : kernel_scope.
Notation "m ;; k" := (bind m (fun _ => k))
  (at level 100, right associativity) : kernel_scope.
Local Open Scope kernel_scope.

Definition fault {A} : K A := fun _ _ => None.
Definition emit (c : call) : K unit := fun _ s => Some (tt, s, [c]).
Definition ask {A} (f : kernel_env -> A) : K A := fun e s => Some (f e, s, []).
Definition get : K kstate := fun _ s => Some (s, s, []).
Definition put (s : kstate) : K unit := fun _ _ => Some (tt, s, []).

(** Dereferences: the object behind [dev], [dev->input], [dev->bulk_in_urb]. *)
Definition load {A} (cell : kstate -> option A) : K A :=
  s <- get ;;
  match cell s with
  | Some a => ret a
  | None => fault
  end.

Definition set_dev_mem (o : option umlaut_kb_data) (s : kstate) : kstate :=
  mk_kstate o (input_mem s) (urb_mem s) (intfdata s).
Definition set_input_mem (o : option input_dev) (s : kstate) : kstate :=
  mk_kstate (dev_mem s) o (urb_mem s) (intfdata s).
Definition set_urb_mem (o : option urb) (s : kstate) : kstate :=
  mk_kstate (dev_mem s) (input_mem s) o (intfdata s).
Definition set_intfdata (p : ptr) (s : kstate) : kstate :=
  mk_kstate (dev_mem s) (input_mem s) (urb_mem s) p.

Definition store_dev (f : umlaut_kb_data -> umlaut_kb_data) : K unit :=
  d <- load dev_mem ;;
  s <- get ;;
  put (set_dev_mem (Some (f d)) s).

Definition store_input (f : input_dev -> input_dev) : K unit :=
  i <- load input_mem ;;
  s <- get ;;
  put (set_input_mem (Some (f i)) s).

Definition store_urb (f : urb -> urb) : K unit :=
  u <- load urb_mem ;;
  s <- get ;;
  put (set_urb_mem (Some (f u)) s).

(** A pointer that is dereferenced has to be non-NULL. *)
Definition deref (p : ptr) : K unit :=
  if is_null p then fault else ret tt.

(** [for (i = 0; i < n; i++) body(i);] *)
Fixpoint for_loop_from (i : Z) (n : nat) (body : Z -> K unit) : K unit :=
  match n with
  | O => ret tt
  | S n' => body i ;; for_loop_from (i + 1) n' body
  end.

Definition for_loop (n : Z) (body : Z -> K unit) : K unit :=
  for_loop_from 0 (Z.to_nat n) body.

(** Field updates. *)
Definition with_udev (p : ptr) (d : umlaut_kb_data) : umlaut_kb_data :=
  mk_data p (interface d) (input d) (phys d) (bulk_in_urb d)
          (bulk_in_buffer d) (kref d).
Definition with_interface (p : ptr) (d : umlaut_kb_data) : umlaut_kb_data :=
  mk_data (udev d) p (input d) (phys d) (bulk_in_urb d)
          (bulk_in_buffer d) (kref d).
Definition with_input (p : ptr) (d : umlaut_kb_data) : umlaut_kb_data :=
  mk_data (udev d) (interface d) p (phys d) (bulk_in_urb d)
          (bulk_in_buffer d) (kref d).
Definition with_phys (p : string) (d : umlaut_kb_data) : umlaut_kb_data :=
  mk_data (udev d) (interface d) (input d) p (bulk_in_urb d)
          (bulk_in_buffer d) (kref d).
Definition with_bulk_in_urb (p : ptr) (d : umlaut_kb_data) : umlaut_kb_data :=
  mk_data (udev d) (interface d) (input d) (phys d) p
          (bulk_in_buffer d) (kref d).
Definition with_bulk_in_buffer (b : list Z) (d : umlaut_kb_data)
  : umlaut_kb_data :=
  mk_data (udev d) (interface d) (input d) (phys d) (bulk_in_urb d)
          b (kref d).
Definition with_kref (n : Z) (d : umlaut_kb_data) : umlaut_kb_data :=
  mk_data (udev d) (interface d) (input d) (phys d) (bulk_in_urb d)
          (bulk_in_buffer d) n.

Definition with_status (z : Z) (u : urb) : urb :=
  mk_urb z (urb_context u) (pipe_endpoint u) (transfer_buffer_length u)
         (has_complete u) (interval u).

Definition with_registered (b : bool) (i : input_dev) : input_dev :=
  mk_input (name i) (input_phys i) (id_from_usb i) (parent i) (drvdata i)
           (has_open i) (has_close i) (evbit i) (keybit i) (users i) b.
Definition with_drvdata (p : ptr) (i : input_dev) : input_dev :=
  mk_input (name i) (input_phys i) (id_from_usb i) (parent i) p
           (has_open i) (has_close i) (evbit i) (keybit i) (users i)
           (registered i).
Definition with_name (n : string) (i : input_dev) : input_dev :=
  mk_input n (input_phys i) (id_from_usb i) (parent i) (drvdata i)
           (has_open i) (has_close i) (evbit i) (keybit i) (users i)
           (registered i).
Definition with_input_phys (p : ptr) (i : input_dev) : input_dev :=
  mk_input (name i) p (id_from_usb i) (parent i) (drvdata i)
           (has_open i) (has_close i) (evbit i) (keybit i) (users i)
           (registered i).
Definition with_parent (p : ptr) (i : input_dev) : input_dev :=
  mk_input (name i) (input_phys i) (id_from_usb i) p (drvdata i)
           (has_open i) (has_close i) (evbit i) (keybit i) (users i)
           (registered i).
Definition with_id_from_usb (i : input_dev) : input_dev :=
  mk_input (name i) (input_phys i) true (parent i) (drvdata i)
           (has_open i) (has_close i) (evbit i) (keybit i) (users i)
           (registered i).
Definition with_open (i : input_dev) : input_dev :=
  mk_input (name i) (input_phys i) (id_from_usb i) (parent i) (drvdata i)
           true (has_close i) (evbit i) (keybit i) (users i) (registered i).
Definition with_close (i : input_dev) : input_dev :=
  mk_input (name i) (input_phys i) (id_from_usb i) (parent i) (drvdata i)
           (has_open i) true (evbit i) (keybit i) (users i) (registered i).
Definition with_evbit (b : list Z) (i : input_dev) : input_dev :=
  mk_input (name i) (input_phys i) (id_from_usb i) (parent i) (drvdata i)
           (has_open i) (has_close i) b (keybit i) (users i) (registered i).
Definition with_keybit (b : list Z) (i : input_dev) : input_dev :=
  mk_input (name i) (input_phys i) (id_from_usb i) (parent i) (drvdata i)
           (has_open i) (has_close i) (evbit i) b (users i) (registered i).

(** ** The kernel interfaces the driver calls

    Each one does to the three objects what the kernel does to the fields
    the driver reads, takes its answer from the environment where it can
    fail, and leaves its call in the trace. *)

(** Memory as [kzalloc] hands it out: every field zero. *)
Definition zero_data : umlaut_kb_data :=
  mk_data NULL NULL NULL "" NULL (repeat 0 (Z.to_nat EP_BUF_SIZE)) 0.
Definition zero_input : input_dev :=
  mk_input "" NULL false NULL NULL false false [] [] 0 false.
Definition zero_urb : urb :=
  mk_urb 0 NULL 0 0 false 0.

Definition kzalloc : K ptr :=
  ok <- ask kzalloc_ok ;;
  if ok : bool then
    s <- get ;;
    put (set_dev_mem (Some zero_data) s) ;;
    emit (Kzalloc ADDR) ;;
    ret ADDR
  else
    emit (Kzalloc NULL) ;;
    ret NULL.

Definition kfree : K unit :=
  s <- get ;;
  put (set_dev_mem None s) ;;
  emit Kfree.

(** The reference count, in the range where a [refcount_t] counts by ones
    (positive, below saturation). *)
Definition kref_init : K unit := store_dev (with_kref 1).

Definition kref_get : K unit :=
  store_dev (fun d => with_kref (kref d + 1) d).

(** [kref_put]: drop one reference and run [release] when it was the last. *)
Definition kref_put (release : K unit) : K unit :=
  store_dev (fun d => with_kref (kref d - 1) d) ;;
  d <- load dev_mem ;;
  if kref d =? 0 then release else ret tt.

Definition spin_lock_init : K unit := ret tt.
Definition mutex_init : K unit := ret tt.
Definition spin_lock_irqsave : K unit := emit Spin_lock_irqsave.
Definition spin_unlock_irqrestore : K unit := emit Spin_unlock_irqrestore.
Definition mutex_lock : K unit := emit Mutex_lock.
Definition mutex_unlock : K unit := emit Mutex_unlock.

Definition dev_err (fmt : string) (args : list Z) : K unit :=
  emit (Dev_err fmt args).
Definition dev_dbg (fmt : string) (args : list Z) : K unit :=
  emit (Dev_dbg fmt args).
Definition dev_info (fmt : string) : K unit :=
  emit (Dev_info fmt).

Definition usb_get_dev : K ptr := emit Usb_get_dev ;; ret ADDR.
Definition usb_put_dev (p : ptr) : K unit := emit (Usb_put_dev p).

Definition usb_alloc_urb : K ptr :=
  ok <- ask usb_alloc_urb_ok ;;
  if ok : bool then
    s <- get ;;
    put (set_urb_mem (Some zero_urb) s) ;;
    emit (Usb_alloc_urb ADDR) ;;
    ret ADDR
  else
    emit (Usb_alloc_urb NULL) ;;
    ret NULL.

Definition usb_free_urb (p : ptr) : K unit :=
  emit (Usb_free_urb p) ;;
  if is_null p then ret tt
  else s <- get ;; put (set_urb_mem None s).

Definition usb_fill_int_urb (p : ptr) (endpoint : Z) (buffer_length : Z)
    (ctx : ptr) (itv : Z) : K unit :=
  deref p ;;
  store_urb (fun u => mk_urb (status u) ctx endpoint buffer_length true itv).

Definition usb_submit_urb (p : ptr) : K Z :=
  r <- ask usb_submit_urb_ret ;;
  emit (Usb_submit_urb r) ;;
  ret r.

Definition usb_kill_urb (p : ptr) : K unit := emit Usb_kill_urb.

Definition usb_autopm_get_interface (p : ptr) : K Z :=
  r <- ask usb_autopm_get_interface_ret ;;
  emit (Usb_autopm_get_interface r) ;;
  ret r.

Definition usb_autopm_put_interface (p : ptr) : K unit :=
  emit Usb_autopm_put_interface.

Definition usb_get_intfdata : K ptr :=
  s <- get ;; ret (intfdata s).

Definition usb_set_intfdata (p : ptr) : K unit :=
  s <- get ;; put (set_intfdata p s).

Definition input_allocate_device : K ptr :=
  ok <- ask input_allocate_device_ok ;;
  if ok : bool then
    s <- get ;;
    put (set_input_mem (Some zero_input) s) ;;
    emit (Input_allocate_device ADDR) ;;
    ret ADDR
  else
    emit (Input_allocate_device NULL) ;;
    ret NULL.

Definition input_free_device (p : ptr) : K unit :=
  emit (Input_free_device p) ;;
  if is_null p then ret tt
  else s <- get ;; put (set_input_mem None s).

Definition input_register_device (p : ptr) : K Z :=
  deref p ;;
  r <- ask input_register_device_ret ;;
  emit (Input_register_device r) ;;
  (if r =? 0 then store_input (with_registered true) else ret tt) ;;
  ret r.

Definition input_unregister_device (p : ptr) : K unit :=
  deref p ;;
  emit Input_unregister_device ;;
  s <- get ;;
  put (set_input_mem (option_map (with_registered false) (input_mem s)) s).

Definition input_get_drvdata : K ptr :=
  i <- load input_mem ;; ret (drvdata i).

Definition input_set_drvdata (p : ptr) : K unit :=
  store_input (with_drvdata p).

Definition usb_to_input_id : K unit := store_input with_id_from_usb.

Definition input_report_key (p : ptr) (code value : Z) : K unit :=
  deref p ;;
  emit (Input_report_key code value).

Definition input_sync (p : ptr) : K unit :=
  deref p ;;
  emit Input_sync.

(** A bitmap is the list of the bits that are set. *)
Definition set_bit (nr : Z) (bits : list Z) : list Z :=
  if existsb (Z.eqb nr) bits then bits else bits ++ [nr].

(** [usb_make_path] and [strlcat] write at most [size - 1] characters. *)
Definition usb_make_path (size : Z) : K unit :=
  path <- ask usb_path ;;
  store_dev (with_phys (substring 0 (Z.to_nat (size - 1)) path)).

Definition strlcat (src : string) (size : Z) : K unit :=
  store_dev (fun d =>
    with_phys (substring 0 (Z.to_nat (size - 1)) (phys d ++ src)%string) d).

(** ** The driver *)

Definition umlaut_kb_delete : K unit :=
  dev <- load dev_mem ;;
  usb_free_urb (bulk_in_urb dev) ;;
  usb_put_dev (udev dev) ;;
  (if is_null (input dev) then ret tt
   else input_unregister_device (input dev)) ;;
  kfree.

Definition umlaut_kb_open : K Z :=
  p <- input_get_drvdata ;;
  if is_null p then ret (- ENODEV)
  else
    dev <- load dev_mem ;;
    retval <- usb_autopm_get_interface (interface dev) ;;
    if negb (retval =? 0) then
      dev_err "Could not get interface, error %d" [retval] ;;
      ret retval
    else
      retval <- usb_submit_urb (bulk_in_urb dev) ;;
      if negb (retval =? 0) then
        dev_err "Could not submit urb, error %d" [retval] ;;
        ret retval
      else
        (* increment our usage count for the device *)
        kref_get ;;
        ret retval.

Definition umlaut_kb_close : K unit :=
  p <- input_get_drvdata ;;
  if is_null p then ret tt
  else
    dev <- load dev_mem ;;
    usb_kill_urb (bulk_in_urb dev) ;;
    usb_autopm_put_interface (interface dev) ;;
    (* decrement the count on our device *)
    kref_put umlaut_kb_delete.

(** The statuses of the second group of [case] labels. *)
Definition ignored_status (st : Z) : bool :=
  (st =? - EOVERFLOW) || (st =? - ECONNRESET)
  || (st =? - ENOENT) || (st =? - ESHUTDOWN).

Definition umlaut_kb_ep_irq : K unit :=
  u <- load urb_mem ;;
  deref (urb_context u) ;;
  dev <- load dev_mem ;;
  let exit : K unit :=
    error <- usb_submit_urb (bulk_in_urb dev) ;;
    (if negb (error =? 0) then
       dev_err "urb failed with code: %d" [error]
     else ret tt) ;;
    spin_unlock_irqrestore in
  spin_lock_irqsave ;;
  if status u =? 0 then
    let code := nth 2 (bulk_in_buffer dev) 0 in
    (if (SCAN_BASE <=? code) && (code <? SCAN_BASE + ARRAY_SIZE keycodes) then
       input_report_key (input dev) KEY_RIGHTALT 1 ;;
       input_report_key (input dev)
                        (nth (Z.to_nat (code - SCAN_BASE)) keycodes 0) 1 ;;
       input_sync (input dev)
     else if code =? 0 then
       for_loop (ARRAY_SIZE keycodes) (fun i =>
         input_report_key (input dev) (nth (Z.to_nat i) keycodes 0) 0) ;;
       input_report_key (input dev) KEY_RIGHTALT 0 ;;
       input_sync (input dev)
     else ret tt) ;;
    exit
  else if ignored_status (status u) then
    dev_dbg "urb ignored status: %d" [status u] ;;
    spin_unlock_irqrestore
  else
    dev_dbg "urb submit status: %d" [status u] ;;
    exit.

(** The [error:] label of [umlaut_kb_probe]. *)
Definition umlaut_kb_probe_error (retval : Z) : K Z :=
  dev <- load dev_mem ;;
  (* dev->input is not registered, so free instead of unregister *)
  input_free_device (input dev) ;;
  store_dev (with_input NULL) ;;
  (* this frees allocated memory *)
  kref_put umlaut_kb_delete ;;
  ret retval.

Definition umlaut_kb_probe : K Z :=
  let retval := - ENOMEM in
  (* allocate memory for our device state and initialize it *)
  p <- kzalloc ;;
  if is_null p then ret (- ENOMEM)
  else
    kref_init ;;
    spin_lock_init ;;
    mutex_init ;;
    ud <- usb_get_dev ;;
    store_dev (with_udev ud) ;;
    store_dev (with_interface ADDR) ;;
    (* set up the endpoint urb *)
    ub <- usb_alloc_urb ;;
    store_dev (with_bulk_in_urb ub) ;;
    if is_null ub then
      dev_err "Could not allocate bulk_in_urb" [] ;;
      umlaut_kb_probe_error retval
    else
      usb_fill_int_urb ub EP_NUM EP_BUF_SIZE p 1 ;;
      (* prepare input device *)
      inp <- input_allocate_device ;;
      store_dev (with_input inp) ;;
      if is_null inp then
        dev_err "Out of memory" [] ;;
        umlaut_kb_probe_error retval
      else
        store_input (with_name "umlaut_kb") ;;
        store_input (with_input_phys ADDR) ;;
        usb_to_input_id ;;
        store_input (with_parent ADDR) ;;
        input_set_drvdata p ;;
        store_input with_open ;;
        store_input with_close ;;
        store_input (fun i => with_evbit (set_bit EV_KEY (evbit i)) i) ;;
        store_input (fun i =>
          with_keybit (set_bit KEY_RIGHTALT (keybit i)) i) ;;
        for_loop (ARRAY_SIZE keycodes) (fun k =>
          store_input (fun i =>
            with_keybit (set_bit (nth (Z.to_nat k) keycodes 0) (keybit i))
                        i)) ;;
        usb_make_path 64 ;;
        strlcat "/input0" 64 ;;
        (* save our data pointer in this interface device *)
        usb_set_intfdata p ;;
        (* we can register the device now, as it is ready *)
        retval <- input_register_device inp ;;
        if negb (retval =? 0) then
          (* something prevented us from registering this driver *)
          dev_err "Could not register the input device." [] ;;
          umlaut_kb_probe_error retval
        else
          (* let the user know what node this device is now attached to *)
          dev_info "Device attached." ;;
          ret 0.

Definition umlaut_kb_disconnect : K unit :=
  p <- usb_get_intfdata ;;
  deref p ;;
  dev <- load dev_mem ;;
  mutex_lock ;;
  usb_set_intfdata NULL ;;
  input_unregister_device (input dev) ;;
  usb_free_urb (bulk_in_urb dev) ;;
  mutex_unlock ;;
  dev_info "Device disconnected.".

Definition umlaut_kb_suspend : K Z :=
  p <- usb_get_intfdata ;;
  if is_null p then ret (- ENODEV)
  else
    dev <- load dev_mem ;;
    deref (input dev) ;;
    i <- load input_mem ;;
    (if negb (users i =? 0) then usb_kill_urb (bulk_in_urb dev)
     else ret tt) ;;
    ret 0.

Definition umlaut_kb_resume : K Z :=
  let retval := 0 in
  p <- usb_get_intfdata ;;
  if is_null p then ret (- ENODEV)
  else
    dev <- load dev_mem ;;
    deref (input dev) ;;
    i <- load input_mem ;;
    if negb (users i =? 0) then
      retval <- usb_submit_urb (bulk_in_urb dev) ;;
      ret retval
    else
      ret retval.

(** The USB core completing a transfer: it has written the report into the
    buffer the URB was filled with and the status into the URB, and calls
    the completion handler. *)
Definition urb_complete (st : Z) (report : list Z) : K unit :=
  store_urb (with_status st) ;;
  store_dev (with_bulk_in_buffer report) ;;
  umlaut_kb_ep_irq.

(** ** Reading a trace *)

Definition is_input_event (c : call) : bool :=
  match c with
  | Input_report_key _ _ | Input_sync => true
  | _ => false
  end.

Definition is_submission (c : call) : bool :=
  match c with
  | Usb_submit_urb _ => true
  | _ => false
  end.

(** What the key event sink sees, and the submissions of the transfer. *)
Definition input_events (t : list call) : list call := filter is_input_event t.
Definition submissions (t : list call) : list call := filter is_submission t.

(** The calls of the [exit:] label of the completion handler. *)
Definition resubmit_calls (r : Z) : list call :=
  Usb_submit_urb r
  :: (if r =? 0 then [] else [Dev_err "urb failed with code: %d" [r]])
  ++ [Spin_unlock_irqrestore].

(** [kref] is a [refcount_t]: it counts by ones as long as it stays
    positive and below [INT_MAX], where it would saturate. *)
Definition REFCOUNT_MAX : Z := 2147483647.

(** A session as a successful probe leaves it: the three objects exist and
    point at each other, and somebody holds the session. *)
Record attached (s : kstate) (d : umlaut_kb_data) (i : input_dev) (u : urb)
  : Prop := mk_attached {
  att_dev : dev_mem s = Some d;
  att_input_mem : input_mem s = Some i;
  att_urb : urb_mem s = Some u;
  att_input : input d = ADDR;
  att_context : urb_context u = ADDR;
  att_drvdata : drvdata i = ADDR;
  att_kref : 0 < kref d < REFCOUNT_MAX
}.

(** The session as a completion hands it to the handler: the status in
    the URB, the report in the buffer. *)
Definition completed (st : Z) (report : list Z) (s : kstate)
    (d : umlaut_kb_data) (u : urb) : kstate :=
  set_dev_mem (Some (with_bulk_in_buffer report d))
              (set_urb_mem (Some (with_status st u)) s).

(** What the sink sees when every key is released: the keys of the table
    up, in table order, then the modifier up, then a sync. *)
Definition all_keys_up : list call :=
  map (fun k => Input_report_key k 0) keycodes
  ++ [Input_report_key KEY_RIGHTALT 0; Input_sync].

(** The statuses the handler gives up on: buffer overflow, connection
    reset, endpoint gone, device shutting down. *)
Definition benign (st : Z) : Prop :=
  st = - EOVERFLOW \/ st = - ECONNRESET \/ st = - ENOENT \/ st = - ESHUTDOWN.

(** The power-active guarantees a trace leaves held: the requests that
    were granted, less the releases. *)
Fixpoint power_held (t : list call) : Z :=
  match t with
  | [] => 0
  | Usb_autopm_get_interface r :: t' =>
      (if r =? 0 then 1 else 0) + power_held t'
  | Usb_autopm_put_interface :: t' => power_held t' - 1
  | _ :: t' => power_held t'
  end.

(** C3 as the specification words it: once a scan code of the window has
    been decoded, the next one does not report KEY_RIGHTALT down again. *)
Definition modifier_down_only_when_up : Prop :=
  forall e1 e2 s d i u r1 r2 s1 t1 s2 t2,
    attached s d i u ->
    SCAN_BASE <= nth 2 r1 0 < SCAN_BASE + 4 ->
    SCAN_BASE <= nth 2 r2 0 < SCAN_BASE + 4 ->
    urb_complete 0 r1 e1 s = Some (tt, s1, t1) ->
    urb_complete 0 r2 e2 s1 = Some (tt, s2, t2) ->
    ~ In (Input_report_key KEY_RIGHTALT 1) t2.

(** ** Sample sessions *)

Definition sample_env (autopm submit : Z) : kernel_env :=
  mk_env true true true 0 autopm submit "usb-0000:00:14.0-2".

Definition sample_data (report : list Z) (refs : Z) : umlaut_kb_data :=
  mk_data ADDR ADDR ADDR "usb-0000:00:14.0-2/input0" ADDR report refs.

Definition sample_input (listeners : Z) : input_dev :=
  mk_input "umlaut_kb" ADDR true ADDR ADDR true true
           [EV_KEY] [KEY_RIGHTALT; KEY_Q; KEY_P; KEY_Y; KEY_S]
           listeners true.

Definition sample_urb (st : Z) : urb :=
  mk_urb st ADDR EP_NUM EP_BUF_SIZE true 1.

Definition sample_state (st : Z) (report : list Z) (refs listeners : Z)
  : kstate :=
  mk_kstate (Some (sample_data report refs))
            (Some (sample_input listeners))
            (Some (sample_urb st))
            ADDR.

Definition report_of (code : Z) : list Z := [0; 0; code; 0; 0; 0; 0; 0].

(** The state before any probe. *)
Definition unbound : kstate := mk_kstate None None None NULL.

(** ** The calls of the completion handler

    What the handler calls, as a function of the three values it reads:
    the status of the URB, byte 2 of the buffer and the answer of
    [usb_submit_urb]. *)

Definition in_window (c : Z) : bool :=
  (SCAN_BASE <=? c) && (c <? SCAN_BASE + ARRAY_SIZE keycodes).

Definition decode_calls (c : Z) : list call :=
  if in_window c then
    [ Input_report_key KEY_RIGHTALT 1
    ; Input_report_key (nth (Z.to_nat (c - SCAN_BASE)) keycodes 0) 1
    ; Input_sync ]
  else if c =? 0 then all_keys_up
  else [].

Definition ep_irq_calls (st c r : Z) : list call :=
  Spin_lock_irqsave
  :: (if st =? 0 then decode_calls c ++ resubmit_calls r
      else if ignored_status st then
        [Dev_dbg "urb ignored status: %d" [st]; Spin_unlock_irqrestore]
      else Dev_dbg "urb submit status: %d" [st] :: resubmit_calls r).

(** ** What a trace holds

    Each resource of the driver is taken by one call and given back by
    another; a call that answers NULL takes nothing, and giving back NULL
    gives back nothing. *)

Definition takes_memory (c : call) : bool :=
  match c with Kzalloc ADDR => true | _ => false end.
Definition gives_memory (c : call) : bool :=
  match c with Kfree => true | _ => false end.

Definition takes_usb_device (c : call) : bool :=
  match c with Usb_get_dev => true | _ => false end.
Definition gives_usb_device (c : call) : bool :=
  match c with Usb_put_dev ADDR => true | _ => false end.

Definition takes_urb (c : call) : bool :=
  match c with Usb_alloc_urb ADDR => true | _ => false end.
Definition gives_urb (c : call) : bool :=
  match c with Usb_free_urb ADDR => true | _ => false end.

Definition takes_input_device (c : call) : bool :=
  match c with Input_allocate_device ADDR => true | _ => false end.
Definition gives_input_device (c : call) : bool :=
  match c with
  | Input_free_device ADDR | Input_unregister_device => true
  | _ => false
  end.

Definition count (f : call -> bool) (t : list call) : Z :=
  Z.of_nat (List.length (filter f t)).

Definition held (takes gives : call -> bool) (t : list call) : Z :=
  count takes t - count gives t.

(** The four resources probe acquires, as a trace leaves them. *)
Definition resources_held (t : list call) : list Z :=
  [ held takes_memory gives_memory t
  ; held takes_usb_device gives_usb_device t
  ; held takes_urb gives_urb t
  ; held takes_input_device gives_input_device t ].

Definition is_lock (c : call) : bool :=
  match c with Spin_lock_irqsave => true | _ => false end.
Definition is_unlock (c : call) : bool :=
  match c with Spin_unlock_irqrestore => true | _ => false end.
Definition is_sync (c : call) : bool :=
  match c with Input_sync => true | _ => false end.

(** ** Sequences of entry points

    The calls the input core, the USB core and the power management make
    on an attached session, each with the answers the kernel gives during
    that call. *)

Inductive op : Type :=
| Op_open
| Op_close
| Op_complete (st : Z) (report : list Z)
| Op_suspend
| Op_resume.

Definition run_op (o : op) : K unit :=
  match o with
  | Op_open => _ <- umlaut_kb_open ;; ret tt
  | Op_close => umlaut_kb_close
  | Op_complete st report => urb_complete st report
  | Op_suspend => _ <- umlaut_kb_suspend ;; ret tt
  | Op_resume => _ <- umlaut_kb_resume ;; ret tt
  end.

Fixpoint run_ops (l : list (op * kernel_env)) (s : kstate)
  : option (kstate * list call) :=
  match l with
  | [] => Some (s, [])
  | (o, e) :: l' =>
      match run_op o e s with
      | None => None
      | Some (_, s1, t1) =>
          match run_ops l' s1 with
          | None => None
          | Some (s2, t2) => Some (s2, t1 ++ t2)
          end
      end
  end.

(** The answers with which [umlaut_kb_open] returns 0. *)
Definition open_succeeds (e : kernel_env) : bool :=
  (usb_autopm_get_interface_ret e =? 0) && (usb_submit_urb_ret e =? 0).

(** The input core closes only what it has opened: [h] counts the opens
    that returned 0 and have not been closed yet. *)
Fixpoint well_paired (h : nat) (l : list (op * kernel_env)) : bool :=
  match l with
  | [] => true
  | (Op_open, e) :: l' =>
      well_paired (if open_succeeds e then S h else h) l'
  | (Op_close, _) :: l' =>
      match h with
      | O => false
      | S h' => well_paired h' l'
      end
  | _ :: l' => well_paired h l'
  end.

Fixpoint holders_after (h : nat) (l : list (op * kernel_env)) : nat :=
  match l with
  | [] => h
  | (Op_open, e) :: l' =>
      holders_after (if open_succeeds e then S h else h) l'
  | (Op_close, _) :: l' => holders_after (pred h) l'
  | _ :: l' => holders_after h l'
  end.

(** The session a successful probe builds. *)
Definition probed_data (path : string) : umlaut_kb_data :=
  mk_data ADDR ADDR ADDR
          (substring 0 63 (substring 0 63 path ++ "/input0")%string)
          ADDR (repeat 0 8) 1.

(** ** The keys the sink holds down

    The sink keeps a key down from a report with a nonzero value until a
    report of the same key with value 0. *)

Definition press_or_release (down : list Z) (c : call) : list Z :=
  match c with
  | Input_report_key k v =>
      if v =? 0 then remove Z.eq_dec k down
      else k :: remove Z.eq_dec k down
  | _ => down
  end.

Definition keys_down_after (down : list Z) (t : list call) : list Z :=
  fold_left press_or_release t down.

(** A run of completions, each with its status, its report and the
    answers of the kernel. *)
Definition completions (l : list (Z * list Z * kernel_env))
  : list (op * kernel_env) :=
  map (fun c => (Op_complete (fst (fst c)) (snd (fst c)), snd c)) l.

(** The opens of a sequence that were granted power and failed to submit. *)
Definition open_fails_at_submit (e : kernel_env) : bool :=
  (usb_autopm_get_interface_ret e =? 0) && negb (usb_submit_urb_ret e =? 0).

Fixpoint opens_failed_at_submit (l : list (op * kernel_env)) : nat :=
  match l with
  | [] => O
  | (Op_open, e) :: l' =>
      (if open_fails_at_submit e then 1 else 0) + opens_failed_at_submit l'
  | _ :: l' => opens_failed_at_submit l'
  end.

(** * Proofs *)

(** ** The completion handler *)

(** Name the fields of an attached session, so that the entry points
    compute on it. *)
Ltac open_session H :=
  let Hd := fresh in let Hi := fresh in let Hu := fresh in
  let Hin := fresh in let Hctx := fresh in let Hdrv := fresh in
  let Hk := fresh "Hkref" in
  destruct H as [Hd Hi Hu Hin Hctx Hdrv Hk];
  match type of Hd with dev_mem ?s = Some ?d =>
    destruct s, d; cbn in Hd, Hi, Hu, Hin; subst
  end;
  match type of Hctx with urb_context ?u = _ =>
    destruct u; cbn in Hctx; subst
  end;
  match type of Hdrv with drvdata ?i = _ =>
    destruct i; cbn in Hdrv; subst
  end;
  cbn in *; subst.

Ltac unfold_K :=
  unfold bind, load, store_dev, store_input, store_urb, deref, get, put, ret,
    ask, emit, fault.

(** The window holds four scan codes. *)
Lemma in_window_cases :
  forall c, SCAN_BASE <= c < SCAN_BASE + 4 ->
            c = 30 \/ c = 31 \/ c = 32 \/ c = 33.
Proof. unfold SCAN_BASE. intros c H. lia. Qed.

Lemma input_events_cons :
  forall c t,
    input_events (c :: t)
    = if is_input_event c then c :: input_events t else input_events t.
Proof. reflexivity. Qed.

Lemma submissions_cons :
  forall c t,
    submissions (c :: t)
    = if is_submission c then c :: submissions t else submissions t.
Proof. reflexivity. Qed.

Lemma submissions_app :
  forall t1 t2, submissions (t1 ++ t2) = submissions t1 ++ submissions t2.
Proof. intros. unfold submissions. apply filter_app. Qed.

(** Project a trace whose tail is the [exit:] label. *)
Ltac project_trace :=
  rewrite ?input_events_cons, ?submissions_cons;
  cbn [is_input_event is_submission].

Lemma input_events_resubmit_calls :
  forall r, input_events (resubmit_calls r) = [].
Proof. intro r. unfold resubmit_calls. destruct (r =? 0); reflexivity. Qed.

Lemma submissions_resubmit_calls :
  forall r, submissions (resubmit_calls r) = [Usb_submit_urb r].
Proof. intro r. unfold resubmit_calls. destruct (r =? 0); reflexivity. Qed.

(** *** The five ways through the handler *)

Lemma ep_irq_window :
  forall e s d i u c,
    attached s d i u ->
    status u = 0 ->
    nth 2 (bulk_in_buffer d) 0 = c ->
    SCAN_BASE <= c < SCAN_BASE + 4 ->
    exists k,
      nth_error keycodes (Z.to_nat (c - SCAN_BASE)) = Some k
      /\ umlaut_kb_ep_irq e s
         = Some (tt, s,
                 Spin_lock_irqsave
                 :: Input_report_key KEY_RIGHTALT 1
                 :: Input_report_key k 1
                 :: Input_sync
                 :: resubmit_calls (usb_submit_urb_ret e)).
Proof.
  intros e s d i u c Hatt Hst Hc Hw.
  apply in_window_cases in Hw. revert Hc Hw.
  open_session Hatt. intros Hc Hw.
  destruct Hw as [-> | [-> | [-> | ->]]];
    unfold umlaut_kb_ep_irq, resubmit_calls; unfold_K; cbn; rewrite Hc; cbn;
    destruct (usb_submit_urb_ret e =? 0); cbn;
    eexists; (split; reflexivity).
Qed.

Lemma ep_irq_zero :
  forall e s d i u,
    attached s d i u ->
    status u = 0 ->
    nth 2 (bulk_in_buffer d) 0 = 0 ->
    umlaut_kb_ep_irq e s
    = Some (tt, s,
            Spin_lock_irqsave
            :: Input_report_key KEY_Q 0
            :: Input_report_key KEY_P 0
            :: Input_report_key KEY_Y 0
            :: Input_report_key KEY_S 0
            :: Input_report_key KEY_RIGHTALT 0
            :: Input_sync
            :: resubmit_calls (usb_submit_urb_ret e)).
Proof.
  intros e s d i u Hatt Hst Hc. revert Hc.
  open_session Hatt. intros Hc.
  unfold umlaut_kb_ep_irq, resubmit_calls; unfold_K; cbn; rewrite Hc; cbn.
  destruct (usb_submit_urb_ret e =? 0); reflexivity.
Qed.

Lemma ep_irq_other :
  forall e s d i u c,
    attached s d i u ->
    status u = 0 ->
    nth 2 (bulk_in_buffer d) 0 = c ->
    c <> 0 ->
    ~ (SCAN_BASE <= c < SCAN_BASE + 4) ->
    umlaut_kb_ep_irq e s
    = Some (tt, s, Spin_lock_irqsave :: resubmit_calls (usb_submit_urb_ret e)).
Proof.
  intros e s d i u c Hatt Hst Hc H0 Hw. revert Hc H0 Hw.
  open_session Hatt. intros Hc H0 Hw.
  assert (Hwb : (SCAN_BASE <=? c) && (c <? 34) = false).
  { destruct (Z.leb_spec SCAN_BASE c), (Z.ltb_spec c 34);
      cbn; try reflexivity; lia. }
  apply Z.eqb_neq in H0.
  unfold umlaut_kb_ep_irq, resubmit_calls; unfold_K.
  cbn -[Z.leb Z.ltb Z.eqb]. rewrite Hc, Hwb, H0. cbn.
  destruct (usb_submit_urb_ret e =? 0); reflexivity.
Qed.

Lemma ep_irq_ignored :
  forall e s d i u,
    attached s d i u ->
    ignored_status (status u) = true ->
    umlaut_kb_ep_irq e s
    = Some (tt, s,
            [ Spin_lock_irqsave
            ; Dev_dbg "urb ignored status: %d" [status u]
            ; Spin_unlock_irqrestore ]).
Proof.
  intros e s d i u Hatt Hig. revert Hig.
  open_session Hatt. intros Hig.
  assert (H0 : (status0 =? 0) = false).
  { destruct (Z.eqb_spec status0 0) as [-> | ]; [discriminate | reflexivity]. }
  unfold umlaut_kb_ep_irq; unfold_K; cbn. rewrite H0, Hig. reflexivity.
Qed.

Lemma ep_irq_default :
  forall e s d i u,
    attached s d i u ->
    status u <> 0 ->
    ignored_status (status u) = false ->
    umlaut_kb_ep_irq e s
    = Some (tt, s,
            Spin_lock_irqsave
            :: Dev_dbg "urb submit status: %d" [status u]
            :: resubmit_calls (usb_submit_urb_ret e)).
Proof.
  intros e s d i u Hatt H0 Hig. revert H0 Hig.
  open_session Hatt. intros H0 Hig.
  apply Z.eqb_neq in H0.
  unfold umlaut_kb_ep_irq, resubmit_calls; unfold_K; cbn. rewrite H0, Hig. cbn.
  destruct (usb_submit_urb_ret e =? 0); reflexivity.
Qed.

(** A completion on an attached session is the handler run on the session
    with the new status and report, and that session is attached too. *)
Lemma urb_complete_attached :
  forall e s d i u st report,
    attached s d i u ->
    urb_complete st report e s
    = umlaut_kb_ep_irq e (completed st report s d u)
    /\ attached (completed st report s d u)
                (with_bulk_in_buffer report d) i (with_status st u).
Proof.
  intros e s d i u st report [Hd Hi Hu Hin Hctx Hdrv Hk].
  destruct s; cbn in Hd, Hi, Hu; subst. split.
  - unfold urb_complete, completed. unfold_K. cbn -[umlaut_kb_ep_irq].
    match goal with
    | |- context [umlaut_kb_ep_irq ?e' ?s'] =>
        destruct (umlaut_kb_ep_irq e' s') as [[[[] s1] t1] | ]; reflexivity
    end.
  - constructor; cbn; auto.
Qed.

(** On a successful status the handler always comes back: it locks,
    reports keys only, resubmits and unlocks. *)
Lemma ep_irq_success :
  forall e s d i u,
    attached s d i u ->
    status u = 0 ->
    exists keys,
      umlaut_kb_ep_irq e s
      = Some (tt, s, Spin_lock_irqsave
                       :: keys ++ resubmit_calls (usb_submit_urb_ret e))
      /\ submissions keys = [].
Proof.
  intros e s d i u Hatt Hst.
  set (c := nth 2 (bulk_in_buffer d) 0).
  destruct (Z.eq_dec c 0) as [Hz | Hnz].
  - exists [ Input_report_key KEY_Q 0; Input_report_key KEY_P 0
           ; Input_report_key KEY_Y 0; Input_report_key KEY_S 0
           ; Input_report_key KEY_RIGHTALT 0; Input_sync ].
    split; [apply (ep_irq_zero e s d i u Hatt Hst Hz) | reflexivity].
  - destruct (Z_le_dec SCAN_BASE c) as [Hlo | Hlo];
      [destruct (Z_lt_dec c (SCAN_BASE + 4)) as [Hhi | Hhi] | ].
    + destruct (ep_irq_window e s d i u c Hatt Hst eq_refl (conj Hlo Hhi))
        as (k & _ & Hrun).
      exists [ Input_report_key KEY_RIGHTALT 1; Input_report_key k 1
             ; Input_sync ].
      split; [exact Hrun | reflexivity].
    + exists []. split; [ | reflexivity].
      apply (ep_irq_other e s d i u c Hatt Hst eq_refl Hnz). lia.
    + exists []. split; [ | reflexivity].
      apply (ep_irq_other e s d i u c Hatt Hst eq_refl Hnz). lia.
Qed.

Lemma sample_attached :
  forall st report refs listeners,
    0 < refs < REFCOUNT_MAX ->
    attached (sample_state st report refs listeners)
             (sample_data report refs) (sample_input listeners)
             (sample_urb st).
Proof. intros. constructor; solve [reflexivity | assumption]. Defined.

(** One or two holders are within the range of the count. *)
Lemma one_holder : 0 < 1 < REFCOUNT_MAX.
Proof. split; reflexivity. Defined.

Lemma two_holders : 0 < 2 < REFCOUNT_MAX.
Proof. split; reflexivity. Defined.

(** A successful probe builds the sample session. *)
Example probe_builds_sample :
  umlaut_kb_probe (sample_env 0 0) unbound
  = Some (0, sample_state 0 (report_of 0) 1 0,
          [ Kzalloc ADDR; Usb_get_dev; Usb_alloc_urb ADDR
          ; Input_allocate_device ADDR; Input_register_device 0
          ; Dev_info "Device attached." ]).
Proof. reflexivity. Qed.

(** ** What the completion handler reports *)

(** C1: with a successful status and a scan code [c] of the window
    [SCAN_BASE <= c < SCAN_BASE + 4] in byte 2 of the report buffer, the
    completion handler reports exactly: KEY_RIGHTALT down, then the key at
    offset [c - SCAN_BASE] of [keycodes] down, then one sync. *)
Theorem ep_irq_window_events :
  forall e s d i u c,
    attached s d i u ->
    status u = 0 ->
    nth 2 (bulk_in_buffer d) 0 = c ->
    SCAN_BASE <= c < SCAN_BASE + 4 ->
    exists t k,
      umlaut_kb_ep_irq e s = Some (tt, s, t)
      /\ nth_error keycodes (Z.to_nat (c - SCAN_BASE)) = Some k
      /\ input_events t
         = [Input_report_key KEY_RIGHTALT 1; Input_report_key k 1; Input_sync].
Proof.
  intros e s d i u c Hatt Hst Hc Hw.
  destruct (ep_irq_window e s d i u c Hatt Hst Hc Hw) as (k & Hk & Hrun).
  eexists. exists k. split; [exact Hrun | split; [exact Hk | ]].
  project_trace. now rewrite input_events_resubmit_calls.
Qed.

Lemma ep_irq_window_events_witness :
  exists t k,
    umlaut_kb_ep_irq (sample_env 0 0) (sample_state 0 (report_of 0x21) 2 1)
    = Some (tt, sample_state 0 (report_of 0x21) 2 1, t)
    /\ nth_error keycodes (Z.to_nat (0x21 - SCAN_BASE)) = Some k
    /\ input_events t
       = [Input_report_key KEY_RIGHTALT 1; Input_report_key k 1; Input_sync].
Proof.
  apply (ep_irq_window_events (sample_env 0 0) _ _ _ _ 0x21
           (sample_attached 0 (report_of 0x21) 2 1 two_holders)).
  - reflexivity.
  - reflexivity.
  - unfold SCAN_BASE. lia.
Defined.

(** The two scenarios of the window: 0x1E is key 0, 0x21 is key 3. *)
Example scan_1E :
  option_map (fun r => input_events (snd r))
    (umlaut_kb_ep_irq (sample_env 0 0) (sample_state 0 (report_of 0x1E) 2 1))
  = Some [Input_report_key KEY_RIGHTALT 1; Input_report_key KEY_Q 1;
          Input_sync].
Proof. reflexivity. Qed.

Example scan_21 :
  option_map (fun r => input_events (snd r))
    (umlaut_kb_ep_irq (sample_env 0 0) (sample_state 0 (report_of 0x21) 2 1))
  = Some [Input_report_key KEY_RIGHTALT 1; Input_report_key KEY_S 1;
          Input_sync].
Proof. reflexivity. Qed.

(** C2: a report with scan code 0, from any session state, makes the
    handler report the four keys of the table up, in table order, then
    KEY_RIGHTALT up, then one sync; a second such report right after the
    first gives the same events again. *)
Theorem ep_irq_zero_releases_all :
  forall e1 e2 s d i u r1 r2,
    attached s d i u ->
    nth 2 r1 0 = 0 ->
    nth 2 r2 0 = 0 ->
    exists s1 t1 s2 t2,
      urb_complete 0 r1 e1 s = Some (tt, s1, t1)
      /\ urb_complete 0 r2 e2 s1 = Some (tt, s2, t2)
      /\ input_events t1 = all_keys_up
      /\ input_events t2 = all_keys_up.
Proof.
  intros e1 e2 s d i u r1 r2 Hatt H1 H2.
  destruct (urb_complete_attached e1 s d i u 0 r1 Hatt) as [E1 A1].
  pose proof (ep_irq_zero e1 _ _ _ _ A1 eq_refl H1) as R1.
  destruct (urb_complete_attached e2 _ _ _ _ 0 r2 A1) as [E2 A2].
  pose proof (ep_irq_zero e2 _ _ _ _ A2 eq_refl H2) as R2.
  rewrite <- E1 in R1. rewrite <- E2 in R2.
  do 4 eexists. split; [exact R1 | split; [exact R2 | ]].
  split; project_trace; now rewrite input_events_resubmit_calls.
Qed.

Lemma ep_irq_zero_releases_all_witness :
  exists s1 t1 s2 t2,
    urb_complete 0 (report_of 0) (sample_env 0 0)
                 (sample_state 0 (report_of 0x1F) 2 1)
    = Some (tt, s1, t1)
    /\ urb_complete 0 (report_of 0) (sample_env 0 0) s1 = Some (tt, s2, t2)
    /\ input_events t1 = all_keys_up
    /\ input_events t2 = all_keys_up.
Proof.
  apply (ep_irq_zero_releases_all (sample_env 0 0) (sample_env 0 0) _ _ _ _
           (report_of 0) (report_of 0)
           (sample_attached 0 (report_of 0x1F) 2 1 two_holders));
    reflexivity.
Defined.

(** The scenario of the release: scan code 0x00. *)
Example scan_00 :
  option_map (fun r => input_events (snd r))
    (umlaut_kb_ep_irq (sample_env 0 0) (sample_state 0 (report_of 0x00) 2 1))
  = Some [Input_report_key KEY_Q 0; Input_report_key KEY_P 0;
          Input_report_key KEY_Y 0; Input_report_key KEY_S 0;
          Input_report_key KEY_RIGHTALT 0; Input_sync].
Proof. reflexivity. Qed.

(** C6: a scan code that is neither 0 nor in the window gives no key
    event and no sync; the transfer is submitted again all the same. *)
Theorem ep_irq_other_code_silent :
  forall e s d i u c,
    attached s d i u ->
    status u = 0 ->
    nth 2 (bulk_in_buffer d) 0 = c ->
    c <> 0 ->
    ~ (SCAN_BASE <= c < SCAN_BASE + 4) ->
    exists t,
      umlaut_kb_ep_irq e s = Some (tt, s, t)
      /\ input_events t = []
      /\ submissions t = [Usb_submit_urb (usb_submit_urb_ret e)].
Proof.
  intros e s d i u c Hatt Hst Hc H0 Hw.
  eexists. split; [apply (ep_irq_other e s d i u c Hatt Hst Hc H0 Hw) | ].
  split; project_trace.
  - apply input_events_resubmit_calls.
  - apply submissions_resubmit_calls.
Qed.

Lemma ep_irq_other_code_silent_witness :
  exists t,
    umlaut_kb_ep_irq (sample_env 0 0) (sample_state 0 (report_of 0x05) 2 1)
    = Some (tt, sample_state 0 (report_of 0x05) 2 1, t)
    /\ input_events t = []
    /\ submissions t = [Usb_submit_urb 0].
Proof.
  apply (ep_irq_other_code_silent (sample_env 0 0) _ _ _ _ 0x05
           (sample_attached 0 (report_of 0x05) 2 1 two_holders)).
  - reflexivity.
  - reflexivity.
  - discriminate.
  - unfold SCAN_BASE. lia.
Defined.

Lemma benign_ignored :
  forall st, benign st <-> ignored_status st = true.
Proof.
  intro st. unfold benign, ignored_status.
  rewrite !orb_true_iff, !Z.eqb_eq. tauto.
Qed.

Lemma benign_nonzero : forall st, benign st -> st <> 0.
Proof. unfold benign. intros st [-> | [-> | [-> | ->]]]; discriminate. Qed.

(** The scenario of a scan code outside the window: 0x05. *)
Example scan_05 :
  option_map (fun r => input_events (snd r))
    (umlaut_kb_ep_irq (sample_env 0 0) (sample_state 0 (report_of 0x05) 2 1))
  = Some [].
Proof. reflexivity. Qed.

(** C5: on a benign status the handler returns at once, with no event and
    no resubmission; on any other nonzero status it skips the decoding and
    resubmits; a failed resubmission is logged and nothing else: the
    handler has no result, leaves the session as it was and submits once. *)
Theorem ep_irq_status_handling :
  forall e s d i u,
    attached s d i u ->
    exists t,
      umlaut_kb_ep_irq e s = Some (tt, s, t)
      /\ (benign (status u) ->
          t = [ Spin_lock_irqsave
              ; Dev_dbg "urb ignored status: %d" [status u]
              ; Spin_unlock_irqrestore ]
          /\ input_events t = [] /\ submissions t = [])
      /\ (status u <> 0 -> ~ benign (status u) ->
          t = Spin_lock_irqsave
              :: Dev_dbg "urb submit status: %d" [status u]
              :: resubmit_calls (usb_submit_urb_ret e)
          /\ input_events t = []
          /\ submissions t = [Usb_submit_urb (usb_submit_urb_ret e)])
      /\ (~ benign (status u) -> usb_submit_urb_ret e <> 0 ->
          submissions t = [Usb_submit_urb (usb_submit_urb_ret e)]
          /\ exists before,
               t = before
                   ++ [ Usb_submit_urb (usb_submit_urb_ret e)
                      ; Dev_err "urb failed with code: %d"
                                [usb_submit_urb_ret e]
                      ; Spin_unlock_irqrestore ]).
Proof.
  intros e s d i u Hatt.
  assert (Hfail : usb_submit_urb_ret e <> 0 ->
                  resubmit_calls (usb_submit_urb_ret e)
                  = [ Usb_submit_urb (usb_submit_urb_ret e)
                    ; Dev_err "urb failed with code: %d"
                              [usb_submit_urb_ret e]
                    ; Spin_unlock_irqrestore ]).
  { intro Hr. unfold resubmit_calls. apply Z.eqb_neq in Hr. now rewrite Hr. }
  destruct (Z.eq_dec (status u) 0) as [Hz | Hnz].
  - destruct (ep_irq_success e s d i u Hatt Hz) as (keys & Hrun & Hk).
    eexists. split; [exact Hrun | ].
    split; [ | split].
    + intro Hb. exfalso. now apply (benign_nonzero (status u)).
    + intros Hnz _. contradiction.
    + intros _ Hr. split.
      * project_trace. rewrite submissions_app, Hk.
        apply submissions_resubmit_calls.
      * exists (Spin_lock_irqsave :: keys). rewrite (Hfail Hr). reflexivity.
  - destruct (ignored_status (status u)) eqn:Hig.
    + eexists. split; [apply (ep_irq_ignored e s d i u Hatt Hig) | ].
      apply benign_ignored in Hig.
      split; [ | split].
      * intros _. repeat split.
      * intros _ Hnb. contradiction.
      * intros Hnb _. contradiction.
    + assert (Hnb : ~ benign (status u)).
      { intro Hb. apply benign_ignored in Hb. congruence. }
      eexists. split; [apply (ep_irq_default e s d i u Hatt Hnz Hig) | ].
      split; [ | split].
      * intro Hb. contradiction.
      * intros _ _. split; [reflexivity | ]. split; project_trace.
        -- apply input_events_resubmit_calls.
        -- apply submissions_resubmit_calls.
      * intros _ Hr. split.
        -- project_trace. apply submissions_resubmit_calls.
        -- exists [ Spin_lock_irqsave
                  ; Dev_dbg "urb submit status: %d" [status u] ].
           rewrite (Hfail Hr). reflexivity.
Qed.

Lemma ep_irq_status_handling_witness :
  (exists t,
      umlaut_kb_ep_irq (sample_env 0 (- ENOMEM))
                       (sample_state (- ESHUTDOWN) (report_of 0x1E) 2 1)
      = Some (tt, sample_state (- ESHUTDOWN) (report_of 0x1E) 2 1, t)
      /\ input_events t = [] /\ submissions t = [])
  /\ (exists t,
         umlaut_kb_ep_irq (sample_env 0 (- ENOMEM))
                          (sample_state (- 71) (report_of 0x1E) 2 1)
         = Some (tt, sample_state (- 71) (report_of 0x1E) 2 1, t)
         /\ input_events t = []
         /\ submissions t = [Usb_submit_urb (- ENOMEM)]).
Proof.
  split.
  - destruct (ep_irq_status_handling (sample_env 0 (- ENOMEM)) _ _ _ _
                (sample_attached (- ESHUTDOWN) (report_of 0x1E) 2 1
                                 two_holders))
      as (t & Hrun & Hbenign & _).
    exists t. split; [exact Hrun | ].
    apply Hbenign. unfold benign. cbn. tauto.
  - destruct (ep_irq_status_handling (sample_env 0 (- ENOMEM)) _ _ _ _
                (sample_attached (- 71) (report_of 0x1E) 2 1
                                 two_holders))
      as (t & Hrun & _ & Hother & _).
    exists t. split; [exact Hrun | ].
    apply Hother.
    + discriminate.
    + unfold benign. cbn. intros [H | [H | [H | H]]]; discriminate H.
Defined.

(** C3, refuted: two reports with scan code 0x1E in a row; the second
    completion reports KEY_RIGHTALT down again. *)
Lemma modifier_down_reported_again : ~ modifier_down_only_when_up.
Proof.
  intro H.
  refine (H (sample_env 0 0) (sample_env 0 0)
            (sample_state 0 (report_of 0) 2 1) _ _ _
            (report_of 0x1E) (report_of 0x1E)
            (sample_state 0 (report_of 0x1E) 2 1) _
            (sample_state 0 (report_of 0x1E) 2 1) _
            (sample_attached 0 (report_of 0) 2 1 two_holders)
            _ _ eq_refl eq_refl _).
  - cbn. unfold SCAN_BASE. lia.
  - cbn. unfold SCAN_BASE. lia.
  - cbn. tauto.
Qed.

(** C3, amended: the handler keeps no modifier state.  It leaves the
    session exactly as the completion delivered it, and every scan code [c]
    of the window makes it report KEY_RIGHTALT down, then the key at offset
    [c - SCAN_BASE] of [keycodes] down, then a sync, so the second of two
    such reports in a row reports KEY_RIGHTALT down a second time. *)
Theorem ep_irq_modifier_down_every_time :
  forall e1 e2 s d i u r1 r2,
    attached s d i u ->
    SCAN_BASE <= nth 2 r1 0 < SCAN_BASE + 4 ->
    SCAN_BASE <= nth 2 r2 0 < SCAN_BASE + 4 ->
    exists t1 t2 k1 k2,
      let s1 := completed 0 r1 s d u in
      let s2 := completed 0 r2 s1 (with_bulk_in_buffer r1 d)
                          (with_status 0 u) in
      urb_complete 0 r1 e1 s = Some (tt, s1, t1)
      /\ urb_complete 0 r2 e2 s1 = Some (tt, s2, t2)
      /\ nth_error keycodes (Z.to_nat (nth 2 r1 0 - SCAN_BASE)) = Some k1
      /\ nth_error keycodes (Z.to_nat (nth 2 r2 0 - SCAN_BASE)) = Some k2
      /\ input_events t1
         = [Input_report_key KEY_RIGHTALT 1; Input_report_key k1 1; Input_sync]
      /\ input_events t2
         = [Input_report_key KEY_RIGHTALT 1; Input_report_key k2 1; Input_sync].
Proof.
  intros e1 e2 s d i u r1 r2 Hatt H1 H2.
  destruct (urb_complete_attached e1 s d i u 0 r1 Hatt) as [E1 A1].
  destruct (ep_irq_window e1 _ _ _ _ _ A1 eq_refl eq_refl H1)
    as (k1 & K1 & R1).
  destruct (urb_complete_attached e2 _ _ _ _ 0 r2 A1) as [E2 A2].
  destruct (ep_irq_window e2 _ _ _ _ _ A2 eq_refl eq_refl H2)
    as (k2 & K2 & R2).
  rewrite <- E1 in R1. rewrite <- E2 in R2.
  eexists. eexists. exists k1, k2. cbv zeta.
  split; [exact R1 | split; [exact R2 | ]].
  split; [exact K1 | split; [exact K2 | ]].
  split; project_trace; now rewrite input_events_resubmit_calls.
Qed.

Lemma ep_irq_modifier_down_every_time_witness :
  exists t1 t2 k1 k2,
    urb_complete 0 (report_of 0x1E) (sample_env 0 0)
                 (sample_state 0 (report_of 0) 2 1)
    = Some (tt, sample_state 0 (report_of 0x1E) 2 1, t1)
    /\ urb_complete 0 (report_of 0x20) (sample_env 0 0)
                    (sample_state 0 (report_of 0x1E) 2 1)
       = Some (tt, sample_state 0 (report_of 0x20) 2 1, t2)
    /\ nth_error keycodes (Z.to_nat (0x1E - SCAN_BASE)) = Some k1
    /\ nth_error keycodes (Z.to_nat (0x20 - SCAN_BASE)) = Some k2
    /\ input_events t1
       = [Input_report_key KEY_RIGHTALT 1; Input_report_key k1 1; Input_sync]
    /\ input_events t2
       = [Input_report_key KEY_RIGHTALT 1; Input_report_key k2 1; Input_sync].
Proof.
  apply (ep_irq_modifier_down_every_time (sample_env 0 0) (sample_env 0 0)
           _ _ _ _ (report_of 0x1E) (report_of 0x20)
           (sample_attached 0 (report_of 0) 2 1 two_holders)).
  - cbn. unfold SCAN_BASE. lia.
  - cbn. unfold SCAN_BASE. lia.
Defined.

(** The key of each of the two reports above: 0x1E is KEY_Q, 0x20 KEY_Y. *)
Example two_presses_in_a_row :
  option_map (fun r => input_events (snd r))
    (urb_complete 0 (report_of 0x20) (sample_env 0 0)
                  (sample_state 0 (report_of 0x1E) 2 1))
  = Some [Input_report_key KEY_RIGHTALT 1; Input_report_key KEY_Y 1;
          Input_sync].
Proof. reflexivity. Qed.

(** ** open and close *)

Lemma open_no_session :
  forall e s i,
    input_mem s = Some i ->
    drvdata i = NULL ->
    umlaut_kb_open e s = Some (- ENODEV, s, []).
Proof.
  intros e s i Hi Hdrv. destruct s, i; cbn in Hi, Hdrv; subst.
  reflexivity.
Qed.

Lemma open_power_failure :
  forall e s d i u,
    attached s d i u ->
    usb_autopm_get_interface_ret e <> 0 ->
    umlaut_kb_open e s
    = Some (usb_autopm_get_interface_ret e, s,
            [ Usb_autopm_get_interface (usb_autopm_get_interface_ret e)
            ; Dev_err "Could not get interface, error %d"
                      [usb_autopm_get_interface_ret e] ]).
Proof.
  intros e s d i u Hatt Ha. open_session Hatt.
  apply Z.eqb_neq in Ha.
  unfold umlaut_kb_open, input_get_drvdata, usb_autopm_get_interface.
  unfold_K. cbn -[Z.eqb]. rewrite Ha. reflexivity.
Qed.

Lemma open_submit_failure :
  forall e s d i u,
    attached s d i u ->
    usb_autopm_get_interface_ret e = 0 ->
    usb_submit_urb_ret e <> 0 ->
    umlaut_kb_open e s
    = Some (usb_submit_urb_ret e, s,
            [ Usb_autopm_get_interface 0
            ; Usb_submit_urb (usb_submit_urb_ret e)
            ; Dev_err "Could not submit urb, error %d"
                      [usb_submit_urb_ret e] ]).
Proof.
  intros e s d i u Hatt Ha Hb. open_session Hatt.
  apply Z.eqb_neq in Hb.
  unfold umlaut_kb_open, input_get_drvdata, usb_autopm_get_interface,
    usb_submit_urb.
  unfold_K. cbn -[Z.eqb]. rewrite Ha, Z.eqb_refl. cbn -[Z.eqb].
  rewrite Hb. reflexivity.
Qed.

Lemma open_success :
  forall e s d i u,
    attached s d i u ->
    usb_autopm_get_interface_ret e = 0 ->
    usb_submit_urb_ret e = 0 ->
    umlaut_kb_open e s
    = Some (0, set_dev_mem (Some (with_kref (kref d + 1) d)) s,
            [Usb_autopm_get_interface 0; Usb_submit_urb 0]).
Proof.
  intros e s d i u Hatt Ha Hb. open_session Hatt.
  unfold umlaut_kb_open, input_get_drvdata, usb_autopm_get_interface,
    usb_submit_urb, kref_get.
  unfold_K. cbn -[Z.eqb]. rewrite Ha, Z.eqb_refl. cbn -[Z.eqb].
  rewrite Hb. reflexivity.
Qed.

(** C4, at the input where the code and the specification part: the
    power request is granted and the submission fails with -ENOMEM.
    [umlaut_kb_open] returns the error and leaves the reference count
    alone, as specified, but it makes no call that releases the power
    guarantee: one is still held when it returns. *)
Theorem open_submit_failure_keeps_power :
  exists t,
    umlaut_kb_open (sample_env 0 (- ENOMEM)) (sample_state 0 (report_of 0) 1 0)
    = Some (- ENOMEM, sample_state 0 (report_of 0) 1 0, t)
    /\ t = [ Usb_autopm_get_interface 0
           ; Usb_submit_urb (- ENOMEM)
           ; Dev_err "Could not submit urb, error %d" [- ENOMEM] ]
    /\ ~ In Usb_autopm_put_interface t
    /\ power_held t = 1.
Proof.
  eexists. split; [reflexivity | ]. split; [reflexivity | ].
  split; [ | reflexivity].
  cbn. intros [H | [H | [H | []]]]; discriminate H.
Qed.

(** C10: an open that fails, for want of session data behind the input
    device, of the power guarantee or of a submitted transfer, leaves the
    session, and so the reference count, as it found it; the count goes
    up, by one, only when the open returns 0, after the power request and
    the submission have both succeeded. *)
Theorem open_failure_keeps_refcount :
  forall e s i,
    input_mem s = Some i ->
    (drvdata i <> NULL -> exists d u, attached s d i u) ->
    exists r s' t,
      umlaut_kb_open e s = Some (r, s', t)
      /\ (r <> 0 <->
          drvdata i = NULL
          \/ usb_autopm_get_interface_ret e <> 0
          \/ usb_submit_urb_ret e <> 0)
      /\ (r <> 0 -> s' = s)
      /\ (r = 0 ->
          exists d,
            dev_mem s = Some d
            /\ s' = set_dev_mem (Some (with_kref (kref d + 1) d)) s
            /\ t = [Usb_autopm_get_interface 0; Usb_submit_urb 0]).
Proof.
  intros e s i Hi Hlive.
  destruct (drvdata i) eqn:Hdrv.
  - exists (- ENODEV), s, []. split; [apply (open_no_session e s i Hi Hdrv) | ].
    split; [ | split].
    + split; [auto | discriminate].
    + reflexivity.
    + discriminate.
  - destruct Hlive as (d & u & Hatt); [discriminate | ].
    destruct (Z.eq_dec (usb_autopm_get_interface_ret e) 0) as [Ha | Ha];
      [destruct (Z.eq_dec (usb_submit_urb_ret e) 0) as [Hb | Hb] | ].
    + do 3 eexists. split; [apply (open_success e s d i u Hatt Ha Hb) | ].
      split; [ | split].
      * split; [congruence | ].
        intros [H | [H | H]]; [discriminate | contradiction | contradiction].
      * congruence.
      * intros _. exists d. destruct Hatt. auto.
    + do 3 eexists.
      split; [apply (open_submit_failure e s d i u Hatt Ha Hb) | ].
      split; [ | split]; [split; auto | reflexivity | contradiction].
    + do 3 eexists. split; [apply (open_power_failure e s d i u Hatt Ha) | ].
      split; [ | split]; [split; auto | reflexivity | contradiction].
Qed.

Lemma open_failure_keeps_refcount_witness :
  exists r s' t,
    umlaut_kb_open (sample_env (- 5) 0) (sample_state 0 (report_of 0) 1 0)
    = Some (r, s', t)
    /\ (r <> 0 <->
        drvdata (sample_input 0) = NULL
        \/ usb_autopm_get_interface_ret (sample_env (- 5) 0) <> 0
        \/ usb_submit_urb_ret (sample_env (- 5) 0) <> 0)
    /\ (r <> 0 -> s' = sample_state 0 (report_of 0) 1 0)
    /\ (r = 0 ->
        exists d,
          dev_mem (sample_state 0 (report_of 0) 1 0) = Some d
          /\ s' = set_dev_mem (Some (with_kref (kref d + 1) d))
                              (sample_state 0 (report_of 0) 1 0)
          /\ t = [Usb_autopm_get_interface 0; Usb_submit_urb 0]).
Proof.
  apply (open_failure_keeps_refcount (sample_env (- 5) 0)
           (sample_state 0 (report_of 0) 1 0) (sample_input 0)).
  - reflexivity.
  - intros _. exists (sample_data (report_of 0) 1), (sample_urb 0).
    apply sample_attached. exact one_holder.
Defined.

(** X16: one call of close cancels the transfer, releases the power
    guarantee and drops one reference.  When that was the last one, and
    only then, it goes on to release the URB, the reference on the USB
    device and the session storage; while a holder remains it releases
    nothing and the session stays, with its count one lower. *)
Theorem close_releases_at_zero :
  forall e s d i u,
    attached s d i u ->
    exists s' released,
      umlaut_kb_close e s
      = Some (tt, s', [Usb_kill_urb; Usb_autopm_put_interface] ++ released)
      /\ (kref d - 1 = 0 ->
          released = [ Usb_free_urb (bulk_in_urb d); Usb_put_dev (udev d)
                     ; Input_unregister_device; Kfree ]
          /\ dev_mem s' = None)
      /\ (kref d - 1 <> 0 ->
          released = []
          /\ s' = set_dev_mem (Some (with_kref (kref d - 1) d)) s).
Proof.
  intros e s d i u Hatt. open_session Hatt.
  unfold umlaut_kb_close, input_get_drvdata, kref_put, umlaut_kb_delete.
  unfold_K. cbn -[Z.eqb].
  destruct (Z.eqb_spec (kref0 - 1) 0) as [Hz | Hnz].
  - destruct bulk_in_urb0; cbn;
      (do 2 eexists; split; [reflexivity | ]; split;
       [intros _; split; reflexivity | intros H; contradiction]).
  - cbn. do 2 eexists. split; [reflexivity | ]. split.
    + intros H; contradiction.
    + intros _. split; reflexivity.
Qed.

Lemma close_releases_at_zero_witness :
  (exists s' released,
      umlaut_kb_close (sample_env 0 0) (sample_state 0 (report_of 0) 1 1)
      = Some (tt, s', [Usb_kill_urb; Usb_autopm_put_interface] ++ released)
      /\ released = [ Usb_free_urb ADDR; Usb_put_dev ADDR
                    ; Input_unregister_device; Kfree ]
      /\ dev_mem s' = None)
  /\ (exists s' released,
         umlaut_kb_close (sample_env 0 0) (sample_state 0 (report_of 0) 2 1)
         = Some (tt, s', [Usb_kill_urb; Usb_autopm_put_interface] ++ released)
         /\ released = []
         /\ s' = sample_state 0 (report_of 0) 1 1).
Proof.
  split.
  - destruct (close_releases_at_zero (sample_env 0 0) _ _ _ _
                (sample_attached 0 (report_of 0) 1 1 one_holder))
      as (s' & released & Hrun & Hlast & _).
    exists s', released. split; [exact Hrun | ]. apply Hlast. reflexivity.
  - destruct (close_releases_at_zero (sample_env 0 0) _ _ _ _
                (sample_attached 0 (report_of 0) 2 1 two_holders))
      as (s' & released & Hrun & _ & Hheld).
    exists s', released. split; [exact Hrun | ]. apply Hheld. discriminate.
Defined.

(** Without session data behind the input device, close does nothing. *)
Lemma close_no_session :
  forall e s i,
    input_mem s = Some i ->
    drvdata i = NULL ->
    umlaut_kb_close e s = Some (tt, s, []).
Proof.
  intros e s i Hi Hdrv. destruct s, i; cbn in Hi, Hdrv; subst.
  reflexivity.
Qed.

(** C8, where the code and the specification part.  The release at zero
    is what [umlaut_kb_delete] under [kref_put] is for, but disconnect
    goes round the count.  After probe and one open the count is 2, and
    disconnect releases the input device and the URB all the same, with
    both holders still there.  And since disconnect drops no reference,
    the count never comes to zero after a probe that returned 0: with the
    consumer gone and the device disconnected it is 1, [umlaut_kb_delete]
    has not run, and the session storage and the reference on the USB
    device are still held. *)
Theorem disconnect_releases_outside_the_count :
  (exists s t d,
      (umlaut_kb_probe ;; umlaut_kb_open ;; umlaut_kb_disconnect)
        (sample_env 0 0) unbound
      = Some (tt, s, t)
      /\ dev_mem s = Some d
      /\ kref d = 2
      /\ urb_mem s = None
      /\ In (Usb_free_urb ADDR) t
      /\ In Input_unregister_device t)
  /\ (exists s t d,
         (umlaut_kb_probe ;; umlaut_kb_open ;; umlaut_kb_close ;;
          umlaut_kb_disconnect) (sample_env 0 0) unbound
         = Some (tt, s, t)
         /\ dev_mem s = Some d
         /\ kref d = 1
         /\ intfdata s = NULL
         /\ ~ In Kfree t
         /\ ~ In (Usb_put_dev ADDR) t
         /\ resources_held t = [1; 1; 0; 0]).
Proof.
  split.
  - exists (mk_kstate (Some (sample_data (report_of 0) 2))
                      (Some (with_registered false (sample_input 0)))
                      None NULL),
      [ Kzalloc ADDR; Usb_get_dev; Usb_alloc_urb ADDR
      ; Input_allocate_device ADDR; Input_register_device 0
      ; Dev_info "Device attached."
      ; Usb_autopm_get_interface 0; Usb_submit_urb 0
      ; Mutex_lock; Input_unregister_device; Usb_free_urb ADDR
      ; Mutex_unlock; Dev_info "Device disconnected." ],
      (sample_data (report_of 0) 2).
    split; [vm_compute; reflexivity | ].
    split; [reflexivity | ]. split; [reflexivity | ].
    split; [reflexivity | ].
    split; [do 10 right; now left | do 9 right; now left].
  - exists (mk_kstate (Some (sample_data (report_of 0) 1))
                      (Some (with_registered false (sample_input 0)))
                      None NULL),
      [ Kzalloc ADDR; Usb_get_dev; Usb_alloc_urb ADDR
      ; Input_allocate_device ADDR; Input_register_device 0
      ; Dev_info "Device attached."
      ; Usb_autopm_get_interface 0; Usb_submit_urb 0
      ; Usb_kill_urb; Usb_autopm_put_interface
      ; Mutex_lock; Input_unregister_device; Usb_free_urb ADDR
      ; Mutex_unlock; Dev_info "Device disconnected." ],
      (sample_data (report_of 0) 1).
    split; [vm_compute; reflexivity | ].
    split; [reflexivity | ]. split; [reflexivity | ].
    split; [reflexivity | ].
    split; [ | split; [ | vm_compute; reflexivity]];
      intros H;
      repeat (destruct H as [H | H]; [discriminate H | ]); exact H.
Qed.

(** ** suspend and resume *)

Lemma suspend_resume_unbound :
  forall e s,
    intfdata s = NULL ->
    umlaut_kb_suspend e s = Some (- ENODEV, s, [])
    /\ umlaut_kb_resume e s = Some (- ENODEV, s, []).
Proof.
  intros e s H. destruct s; cbn in H; subst. split; reflexivity.
Qed.

Lemma suspend_resume_idle :
  forall e s d i u,
    intfdata s = ADDR ->
    attached s d i u ->
    users i = 0 ->
    umlaut_kb_suspend e s = Some (0, s, [])
    /\ umlaut_kb_resume e s = Some (0, s, []).
Proof.
  intros e s d i u Hp Hatt Hus. revert Hp Hus.
  open_session Hatt. intros -> ->. split; reflexivity.
Qed.

Lemma suspend_resume_listening :
  forall e s d i u,
    intfdata s = ADDR ->
    attached s d i u ->
    users i <> 0 ->
    umlaut_kb_suspend e s = Some (0, s, [Usb_kill_urb])
    /\ umlaut_kb_resume e s
       = Some (usb_submit_urb_ret e, s,
               [Usb_submit_urb (usb_submit_urb_ret e)]).
Proof.
  intros e s d i u Hp Hatt Hus. revert Hp Hus.
  open_session Hatt. intros -> Hus. apply Z.eqb_neq in Hus.
  unfold umlaut_kb_suspend, umlaut_kb_resume, usb_get_intfdata,
    usb_kill_urb, usb_submit_urb.
  unfold_K. cbn -[Z.eqb]. rewrite Hus. split; reflexivity.
Qed.

(** C7: with no session behind the interface suspend and resume return
    -ENODEV; with a session that nobody has opened they do nothing and
    return 0; with listeners suspend kills the URB and resume submits it,
    and resume hands a failed submission back to its caller with the
    session untouched. *)
Theorem suspend_resume_cases :
  forall e s d i u,
    (intfdata s <> NULL -> attached s d i u) ->
    exists rs ts rr tr,
      umlaut_kb_suspend e s = Some (rs, s, ts)
      /\ umlaut_kb_resume e s = Some (rr, s, tr)
      /\ (intfdata s = NULL ->
          rs = - ENODEV /\ ts = [] /\ rr = - ENODEV /\ tr = [])
      /\ (intfdata s <> NULL -> users i = 0 ->
          rs = 0 /\ ts = [] /\ rr = 0 /\ tr = [])
      /\ (intfdata s <> NULL -> users i <> 0 ->
          rs = 0 /\ ts = [Usb_kill_urb]
          /\ rr = usb_submit_urb_ret e
          /\ tr = [Usb_submit_urb (usb_submit_urb_ret e)]).
Proof.
  intros e s d i u Hlive.
  destruct (intfdata s) eqn:Hp.
  - destruct (suspend_resume_unbound e s Hp) as [Hs Hr].
    do 4 eexists. split; [exact Hs | split; [exact Hr | ]].
    split; [ | split].
    + intros _. repeat split.
    + intros H. contradiction.
    + intros H. contradiction.
  - assert (Hatt : attached s d i u) by (apply Hlive; discriminate).
    destruct (Z.eq_dec (users i) 0) as [Hus | Hus].
    + destruct (suspend_resume_idle e s d i u Hp Hatt Hus) as [Hs Hr].
      do 4 eexists. split; [exact Hs | split; [exact Hr | ]].
      split; [ | split].
      * discriminate.
      * intros _ _. repeat split.
      * intros _ H. contradiction.
    + destruct (suspend_resume_listening e s d i u Hp Hatt Hus) as [Hs Hr].
      do 4 eexists. split; [exact Hs | split; [exact Hr | ]].
      split; [ | split].
      * discriminate.
      * intros _ H. contradiction.
      * intros _ _. repeat split.
Qed.

Lemma suspend_resume_cases_witness :
  exists rs ts rr tr,
    umlaut_kb_suspend (sample_env 0 (- ENOMEM))
                      (sample_state 0 (report_of 0) 2 1)
    = Some (rs, sample_state 0 (report_of 0) 2 1, ts)
    /\ umlaut_kb_resume (sample_env 0 (- ENOMEM))
                        (sample_state 0 (report_of 0) 2 1)
       = Some (rr, sample_state 0 (report_of 0) 2 1, tr)
    /\ rs = 0 /\ ts = [Usb_kill_urb]
    /\ rr = - ENOMEM /\ tr = [Usb_submit_urb (- ENOMEM)].
Proof.
  destruct (suspend_resume_cases (sample_env 0 (- ENOMEM))
              (sample_state 0 (report_of 0) 2 1)
              (sample_data (report_of 0) 2) (sample_input 1) (sample_urb 0)
              (fun _ => sample_attached 0 (report_of 0) 2 1 two_holders))
    as (rs & ts & rr & tr & Hs & Hr & _ & _ & Hlisten).
  exists rs, ts, rr, tr. split; [exact Hs | split; [exact Hr | ]].
  apply Hlisten; discriminate.
Defined.

(** ** probe *)

(** C9: once the three allocations of probe have succeeded, the answer of
    [input_register_device] is the answer of probe.  When it is an error,
    probe frees the input device, the URB, the reference on the USB device
    and the session storage, and no session is left; when it is 0 the
    session is attached, registered with the sink, with a reference count
    of 1.  Either way probe submits no transfer. *)
Theorem probe_registration :
  forall e s,
    kzalloc_ok e = true ->
    usb_alloc_urb_ok e = true ->
    input_allocate_device_ok e = true ->
    exists s' t,
      umlaut_kb_probe e s = Some (input_register_device_ret e, s', t)
      /\ submissions t = []
      /\ (input_register_device_ret e <> 0 ->
          t = [ Kzalloc ADDR; Usb_get_dev; Usb_alloc_urb ADDR
              ; Input_allocate_device ADDR
              ; Input_register_device (input_register_device_ret e)
              ; Dev_err "Could not register the input device." []
              ; Input_free_device ADDR
              ; Usb_free_urb ADDR; Usb_put_dev ADDR; Kfree ]
          /\ dev_mem s' = None /\ input_mem s' = None /\ urb_mem s' = None)
      /\ (input_register_device_ret e = 0 ->
          t = [ Kzalloc ADDR; Usb_get_dev; Usb_alloc_urb ADDR
              ; Input_allocate_device ADDR
              ; Input_register_device 0
              ; Dev_info "Device attached." ]
          /\ intfdata s' = ADDR
          /\ exists d i u,
               attached s' d i u
               /\ kref d = 1
               /\ registered i = true).
Proof.
  intros e s Hk Hu Hi.
  destruct e as [k ua ia r a b path]; cbn in Hk, Hu, Hi; subst.
  destruct s as [dm im um p].
  unfold umlaut_kb_probe, umlaut_kb_probe_error, kzalloc, usb_alloc_urb,
    input_allocate_device, input_register_device, kref_put, umlaut_kb_delete.
  unfold_K.
  destruct r as [ | q | q]; cbv -[substring String.append].
  - do 2 eexists. split; [reflexivity | ]. split; [reflexivity | ]. split.
    + intros H. contradiction.
    + intros _. split; [reflexivity | ]. split; [reflexivity | ].
      do 3 eexists. split; [constructor; solve [reflexivity | easy] | ].
      split; reflexivity.
  - do 2 eexists. split; [reflexivity | ]. split; [reflexivity | ]. split.
    + intros _. repeat split.
    + intros H. discriminate H.
  - do 2 eexists. split; [reflexivity | ]. split; [reflexivity | ]. split.
    + intros _. repeat split.
    + intros H. discriminate H.
Qed.

Lemma probe_registration_witness :
  exists s' t,
    umlaut_kb_probe (mk_env true true true (- ENOMEM) 0 0 "usb-0000:00:14.0-2")
                    unbound
    = Some (- ENOMEM, s', t)
    /\ submissions t = []
    /\ t = [ Kzalloc ADDR; Usb_get_dev; Usb_alloc_urb ADDR
           ; Input_allocate_device ADDR
           ; Input_register_device (- ENOMEM)
           ; Dev_err "Could not register the input device." []
           ; Input_free_device ADDR
           ; Usb_free_urb ADDR; Usb_put_dev ADDR; Kfree ]
    /\ dev_mem s' = None /\ input_mem s' = None /\ urb_mem s' = None.
Proof.
  destruct (probe_registration
              (mk_env true true true (- ENOMEM) 0 0 "usb-0000:00:14.0-2")
              unbound eq_refl eq_refl eq_refl)
    as (s' & t & Hrun & Hsub & Hfail & _).
  exists s', t. split; [exact Hrun | ]. split; [exact Hsub | ].
  apply Hfail. discriminate.
Defined.

(** ** A session from probe to close

    Probe, open, a key press, the release, close: the calls the kernel
    sees, and the session left with the single reference of probe. *)
Example probe_open_press_release_close :
  (umlaut_kb_probe ;;
   umlaut_kb_open ;;
   urb_complete 0 (report_of 0x1E) ;;
   urb_complete 0 (report_of 0x00) ;;
   umlaut_kb_close) (sample_env 0 0) unbound
  = Some (tt, sample_state 0 (report_of 0) 1 0,
          [ Kzalloc ADDR; Usb_get_dev; Usb_alloc_urb ADDR
          ; Input_allocate_device ADDR; Input_register_device 0
          ; Dev_info "Device attached."
          ; Usb_autopm_get_interface 0; Usb_submit_urb 0
          ; Spin_lock_irqsave
          ; Input_report_key KEY_RIGHTALT 1; Input_report_key KEY_Q 1
          ; Input_sync
          ; Usb_submit_urb 0; Spin_unlock_irqrestore
          ; Spin_lock_irqsave
          ; Input_report_key KEY_Q 0; Input_report_key KEY_P 0
          ; Input_report_key KEY_Y 0; Input_report_key KEY_S 0
          ; Input_report_key KEY_RIGHTALT 0; Input_sync
          ; Usb_submit_urb 0; Spin_unlock_irqrestore
          ; Usb_kill_urb; Usb_autopm_put_interface ]).
Proof. reflexivity. Qed.

(** * Beyond the specification's sentences

    Properties of the entry points read off the source. *)

(** ** The handler as a function of what it reads *)

Lemma in_window_spec :
  forall c, in_window c = true <-> SCAN_BASE <= c < SCAN_BASE + 4.
Proof.
  intro c. unfold in_window.
  change (SCAN_BASE + ARRAY_SIZE keycodes) with (SCAN_BASE + 4).
  rewrite andb_true_iff, Z.leb_le, Z.ltb_lt. tauto.
Qed.

Lemma in_window_false :
  forall c, in_window c = false <-> ~ (SCAN_BASE <= c < SCAN_BASE + 4).
Proof.
  intro c. rewrite <- in_window_spec.
  destruct (in_window c); split; intro H; congruence.
Qed.

Lemma in_window_nonzero : forall c, in_window c = true -> c <> 0.
Proof. intros c H. apply in_window_spec in H. unfold SCAN_BASE in H. lia. Qed.

Lemma ep_irq_run :
  forall e s d i u,
    attached s d i u ->
    umlaut_kb_ep_irq e s
    = Some (tt, s,
            ep_irq_calls (status u) (nth 2 (bulk_in_buffer d) 0)
                         (usb_submit_urb_ret e)).
Proof.
  intros e s d i u Hatt. unfold ep_irq_calls.
  destruct (Z.eqb_spec (status u) 0) as [Hz | Hnz].
  - unfold decode_calls.
    destruct (in_window (nth 2 (bulk_in_buffer d) 0)) eqn:Hw.
    + apply in_window_spec in Hw.
      destruct (ep_irq_window e s d i u _ Hatt Hz eq_refl Hw)
        as (k & Hk & Hrun).
      rewrite Hrun. apply (nth_error_nth _ _ 0) in Hk. now rewrite Hk.
    + apply in_window_false in Hw.
      destruct (Z.eqb_spec (nth 2 (bulk_in_buffer d) 0) 0) as [Hc | Hc].
      * apply (ep_irq_zero e s d i u Hatt Hz Hc).
      * apply (ep_irq_other e s d i u _ Hatt Hz eq_refl Hc Hw).
  - destruct (ignored_status (status u)) eqn:Hig.
    + apply (ep_irq_ignored e s d i u Hatt Hig).
    + apply (ep_irq_default e s d i u Hatt Hnz Hig).
Qed.

(** A completion on an attached session: what it leaves and what it calls. *)
Lemma urb_complete_run :
  forall e s d i u st report,
    attached s d i u ->
    urb_complete st report e s
    = Some (tt, completed st report s d u,
            ep_irq_calls st (nth 2 report 0) (usb_submit_urb_ret e))
    /\ attached (completed st report s d u)
                (with_bulk_in_buffer report d) i (with_status st u).
Proof.
  intros e s d i u st report Hatt.
  destruct (urb_complete_attached e s d i u st report Hatt) as [E A].
  split; [ | exact A]. rewrite E. apply (ep_irq_run e _ _ _ _ A).
Qed.

Lemma resubmit_calls_snoc :
  forall r,
    resubmit_calls r
    = (Usb_submit_urb r
       :: (if r =? 0 then [] else [Dev_err "urb failed with code: %d" [r]]))
      ++ [Spin_unlock_irqrestore].
Proof. reflexivity. Qed.

Lemma decode_calls_cases :
  forall c,
    decode_calls c = []
    \/ exists reports,
         decode_calls c = reports ++ [Input_sync]
         /\ filter is_sync reports = []
         /\ reports <> [].
Proof.
  intro c. unfold decode_calls.
  destruct (in_window c); [ | destruct (c =? 0)].
  - right. eexists [_; _]. repeat split. discriminate.
  - right. exists (map (fun k => Input_report_key k 0) keycodes
                   ++ [Input_report_key KEY_RIGHTALT 0]).
    repeat split. discriminate.
  - now left.
Qed.

Lemma decode_calls_only_input :
  forall c,
    input_events (decode_calls c) = decode_calls c
    /\ submissions (decode_calls c) = []
    /\ filter is_lock (decode_calls c) = []
    /\ filter is_unlock (decode_calls c) = [].
Proof.
  intro c. unfold decode_calls.
  destruct (in_window c); [ | destruct (c =? 0)]; repeat split.
Qed.

(** X1: the handler takes the spinlock before anything else, gives it back
    as its last call, on every path, and does not touch it in between;
    the session is left as the completion delivered it. *)
Theorem ep_irq_lock_discipline :
  forall e s d i u,
    attached s d i u ->
    exists body,
      umlaut_kb_ep_irq e s
      = Some (tt, s, Spin_lock_irqsave :: body ++ [Spin_unlock_irqrestore])
      /\ filter is_lock body = []
      /\ filter is_unlock body = [].
Proof.
  intros e s d i u Hatt. rewrite (ep_irq_run e s d i u Hatt).
  unfold ep_irq_calls.
  set (c := nth 2 (bulk_in_buffer d) 0). set (r := usb_submit_urb_ret e).
  destruct (decode_calls_only_input c) as (_ & _ & Hl & Hu).
  destruct (status u =? 0); [ | destruct (ignored_status (status u))].
  - exists (decode_calls c
            ++ Usb_submit_urb r
               :: (if r =? 0 then []
                   else [Dev_err "urb failed with code: %d" [r]])).
    rewrite resubmit_calls_snoc, app_assoc. split; [reflexivity | ].
    rewrite !filter_app, Hl, Hu. destruct (r =? 0); split; reflexivity.
  - exists [Dev_dbg "urb ignored status: %d" [status u]].
    repeat split.
  - exists (Dev_dbg "urb submit status: %d" [status u]
            :: Usb_submit_urb r
               :: (if r =? 0 then []
                   else [Dev_err "urb failed with code: %d" [r]])).
    split; [reflexivity | ]. destruct (r =? 0); split; reflexivity.
Qed.

Lemma ep_irq_lock_discipline_witness :
  exists body,
    umlaut_kb_ep_irq (sample_env 0 (- ENOMEM))
                     (sample_state 0 (report_of 0x20) 2 1)
    = Some (tt, sample_state 0 (report_of 0x20) 2 1,
            Spin_lock_irqsave :: body ++ [Spin_unlock_irqrestore])
    /\ filter is_lock body = []
    /\ filter is_unlock body = [].
Proof.
  apply (ep_irq_lock_discipline (sample_env 0 (- ENOMEM)) _ _ _ _
           (sample_attached 0 (report_of 0x20) 2 1 two_holders)).
Defined.

(** X2: on a successful status, whatever the scan code, the handler first
    reports to the sink and only then submits the URB again, once.  What
    it reports is nothing at all, or key events closed by one sync, the
    only sync of the completion. *)
Theorem ep_irq_reports_then_resubmits :
  forall e s d i u,
    attached s d i u ->
    status u = 0 ->
    exists keys,
      umlaut_kb_ep_irq e s
      = Some (tt, s,
              Spin_lock_irqsave
              :: keys ++ resubmit_calls (usb_submit_urb_ret e))
      /\ input_events keys = keys
      /\ submissions keys = []
      /\ (keys = []
          \/ exists reports,
               keys = reports ++ [Input_sync]
               /\ filter is_sync reports = []
               /\ reports <> []).
Proof.
  intros e s d i u Hatt Hst. rewrite (ep_irq_run e s d i u Hatt).
  unfold ep_irq_calls. rewrite Hst. cbn [Z.eqb].
  exists (decode_calls (nth 2 (bulk_in_buffer d) 0)).
  destruct (decode_calls_only_input (nth 2 (bulk_in_buffer d) 0))
    as (Hin & Hsub & _).
  repeat split; try assumption. apply decode_calls_cases.
Qed.

Lemma ep_irq_reports_then_resubmits_witness :
  exists keys,
    umlaut_kb_ep_irq (sample_env 0 0) (sample_state 0 (report_of 0x1F) 2 1)
    = Some (tt, sample_state 0 (report_of 0x1F) 2 1,
            Spin_lock_irqsave :: keys ++ resubmit_calls 0)
    /\ input_events keys = keys
    /\ submissions keys = []
    /\ (keys = []
        \/ exists reports,
             keys = reports ++ [Input_sync]
             /\ filter is_sync reports = []
             /\ reports <> []).
Proof.
  apply (ep_irq_reports_then_resubmits (sample_env 0 0) _ _ _ _
           (sample_attached 0 (report_of 0x1F) 2 1 two_holders)).
  reflexivity.
Defined.

(** X3: the handler has no memory and reads one byte.  Two completions
    with the same status whose reports agree on byte 2, on any two attached
    sessions, make the same calls when [usb_submit_urb] answers the same,
    whatever the other seven bytes and whatever was decoded before. *)
Theorem urb_complete_reads_byte_2_only :
  forall e e' s d i u s' d' i' u' st report report',
    attached s d i u ->
    attached s' d' i' u' ->
    nth 2 report 0 = nth 2 report' 0 ->
    usb_submit_urb_ret e = usb_submit_urb_ret e' ->
    exists s1 s1' t,
      urb_complete st report e s = Some (tt, s1, t)
      /\ urb_complete st report' e' s' = Some (tt, s1', t).
Proof.
  intros e e' s d i u s' d' i' u' st report report' Hatt Hatt' Hb Hr.
  destruct (urb_complete_run e s d i u st report Hatt) as [E _].
  destruct (urb_complete_run e' s' d' i' u' st report' Hatt') as [E' _].
  rewrite <- Hb, <- Hr in E'.
  do 3 eexists. split; [exact E | exact E'].
Qed.

Lemma urb_complete_reads_byte_2_only_witness :
  exists s1 s1' t,
    urb_complete 0 [1; 2; 0x1E; 4; 5; 6; 7; 8] (sample_env 0 0)
                 (sample_state 0 (report_of 0) 2 1)
    = Some (tt, s1, t)
    /\ urb_complete 0 (report_of 0x1E) (sample_env (- 5) 0)
                    (sample_state (- 71) (report_of 0x21) 1 1)
       = Some (tt, s1', t).
Proof.
  apply (urb_complete_reads_byte_2_only
           (sample_env 0 0) (sample_env (- 5) 0) _ _ _ _ _ _ _ _ 0
           [1; 2; 0x1E; 4; 5; 6; 7; 8] (report_of 0x1E)
           (sample_attached 0 (report_of 0) 2 1 two_holders)
           (sample_attached (- 71) (report_of 0x21) 1 1 one_holder));
    reflexivity.
Defined.

(** ** probe, path by path *)

Ltac unfold_probe :=
  unfold umlaut_kb_probe, umlaut_kb_probe_error, kzalloc, usb_alloc_urb,
    input_allocate_device, input_register_device, kref_put, umlaut_kb_delete;
  unfold_K.

Lemma probe_no_memory :
  forall e s,
    kzalloc_ok e = false ->
    umlaut_kb_probe e s = Some (- ENOMEM, s, [Kzalloc NULL]).
Proof.
  intros e s Hk. destruct e as [k ua ia r a b path]; cbn in Hk; subst.
  destruct s. reflexivity.
Qed.

Lemma probe_no_urb :
  forall e s,
    kzalloc_ok e = true ->
    usb_alloc_urb_ok e = false ->
    umlaut_kb_probe e s
    = Some (- ENOMEM, set_dev_mem None s,
            [ Kzalloc ADDR; Usb_get_dev; Usb_alloc_urb NULL
            ; Dev_err "Could not allocate bulk_in_urb" []
            ; Input_free_device NULL
            ; Usb_free_urb NULL; Usb_put_dev ADDR; Kfree ]).
Proof.
  intros e s Hk Hu.
  destruct e as [k ua ia r a b path]; cbn in Hk, Hu; subst.
  destruct s. reflexivity.
Qed.

Lemma probe_no_input :
  forall e s,
    kzalloc_ok e = true ->
    usb_alloc_urb_ok e = true ->
    input_allocate_device_ok e = false ->
    umlaut_kb_probe e s
    = Some (- ENOMEM, set_urb_mem None (set_dev_mem None s),
            [ Kzalloc ADDR; Usb_get_dev; Usb_alloc_urb ADDR
            ; Input_allocate_device NULL
            ; Dev_err "Out of memory" []
            ; Input_free_device NULL
            ; Usb_free_urb ADDR; Usb_put_dev ADDR; Kfree ]).
Proof.
  intros e s Hk Hu Hi.
  destruct e as [k ua ia r a b path]; cbn in Hk, Hu, Hi; subst.
  destruct s. reflexivity.
Qed.

Lemma probe_not_registered :
  forall e s,
    kzalloc_ok e = true ->
    usb_alloc_urb_ok e = true ->
    input_allocate_device_ok e = true ->
    input_register_device_ret e <> 0 ->
    umlaut_kb_probe e s
    = Some (input_register_device_ret e,
            mk_kstate None None None ADDR,
            [ Kzalloc ADDR; Usb_get_dev; Usb_alloc_urb ADDR
            ; Input_allocate_device ADDR
            ; Input_register_device (input_register_device_ret e)
            ; Dev_err "Could not register the input device." []
            ; Input_free_device ADDR
            ; Usb_free_urb ADDR; Usb_put_dev ADDR; Kfree ]).
Proof.
  intros e s Hk Hu Hi Hr.
  destruct e as [k ua ia r a b path]; cbn in Hk, Hu, Hi, Hr; subst.
  destruct s. unfold_probe.
  destruct r as [ | q | q]; [contradiction | reflexivity | reflexivity].
Qed.

Lemma probe_registered :
  forall e s,
    kzalloc_ok e = true ->
    usb_alloc_urb_ok e = true ->
    input_allocate_device_ok e = true ->
    input_register_device_ret e = 0 ->
    umlaut_kb_probe e s
    = Some (0,
            mk_kstate (Some (probed_data (usb_path e)))
                      (Some (sample_input 0)) (Some (sample_urb 0)) ADDR,
            [ Kzalloc ADDR; Usb_get_dev; Usb_alloc_urb ADDR
            ; Input_allocate_device ADDR; Input_register_device 0
            ; Dev_info "Device attached." ]).
Proof.
  intros e s Hk Hu Hi Hr.
  destruct e as [k ua ia r a b path]; cbn in Hk, Hu, Hi, Hr; subst.
  destruct s. reflexivity.
Qed.

Lemma probed_attached :
  forall path p,
    attached (mk_kstate (Some (probed_data path)) (Some (sample_input 0))
                        (Some (sample_urb 0)) p)
             (probed_data path) (sample_input 0) (sample_urb 0).
Proof. intros. constructor; solve [reflexivity | split; reflexivity]. Qed.

(** Probe returns 0 only when nothing failed. *)
Lemma probe_success_inv :
  forall e s s' t,
    umlaut_kb_probe e s = Some (0, s', t) ->
    kzalloc_ok e = true
    /\ usb_alloc_urb_ok e = true
    /\ input_allocate_device_ok e = true
    /\ input_register_device_ret e = 0.
Proof.
  intros e s s' t H.
  destruct (kzalloc_ok e) eqn:Hk;
    [ | rewrite (probe_no_memory e s Hk) in H; discriminate H].
  destruct (usb_alloc_urb_ok e) eqn:Hu;
    [ | rewrite (probe_no_urb e s Hk Hu) in H; discriminate H].
  destruct (input_allocate_device_ok e) eqn:Hi;
    [ | rewrite (probe_no_input e s Hk Hu Hi) in H; discriminate H].
  destruct (Z.eq_dec (input_register_device_ret e) 0) as [Hr | Hr];
    [now repeat split | ].
  rewrite (probe_not_registered e s Hk Hu Hi Hr) in H.
  inversion H. contradiction.
Qed.

Lemma resubmit_calls_no_key :
  forall r code v, ~ In (Input_report_key code v) (resubmit_calls r).
Proof.
  intros r code v. unfold resubmit_calls.
  destruct (r =? 0); cbn; intros H;
    repeat (destruct H as [H | H]; [discriminate H | ]); exact H.
Qed.

Lemma decode_calls_keys :
  forall c code v,
    In (Input_report_key code v) (decode_calls c) ->
    In code (KEY_RIGHTALT :: keycodes) /\ (v = 0 \/ v = 1).
Proof.
  intros c code v. unfold decode_calls.
  destruct (in_window c) eqn:Hw; [ | destruct (c =? 0)].
  - apply in_window_spec, in_window_cases in Hw.
    destruct Hw as [-> | [-> | [-> | ->]]]; cbn; intros H;
      repeat (destruct H as [H | H];
              [inversion H; subst; cbn; tauto | ]);
      contradiction.
  - cbn. intros H.
    repeat (destruct H as [H | H];
            [inversion H; subst; cbn; tauto | ]);
      contradiction.
  - intros [].
Qed.

Lemma ep_irq_calls_keys :
  forall st c r code v,
    In (Input_report_key code v) (ep_irq_calls st c r) ->
    In code (KEY_RIGHTALT :: keycodes) /\ (v = 0 \/ v = 1).
Proof.
  intros st c r code v. unfold ep_irq_calls.
  intros [H | H]; [discriminate H | ].
  destruct (st =? 0); [ | destruct (ignored_status st)].
  - apply in_app_or in H. destruct H as [H | H].
    + now apply (decode_calls_keys c).
    + now apply resubmit_calls_no_key in H.
  - cbn in H.
    repeat (destruct H as [H | H]; [discriminate H | ]); contradiction.
  - destruct H as [H | H]; [discriminate H | ].
    now apply resubmit_calls_no_key in H.
Qed.

(** X4: the handler stays inside what probe declared.  After a probe that
    returned 0, whatever status and report a completion brings, every key
    the handler reports is one whose bit probe set in [keybit] (with EV_KEY
    set in [evbit]), and it is reported with value 0 or 1. *)
Theorem ep_irq_reports_declared_keys :
  forall e s s0 t0 e' st report,
    umlaut_kb_probe e s = Some (0, s0, t0) ->
    exists i s1 t,
      input_mem s0 = Some i
      /\ In EV_KEY (evbit i)
      /\ urb_complete st report e' s0 = Some (tt, s1, t)
      /\ forall code v,
           In (Input_report_key code v) t ->
           In code (keybit i) /\ (v = 0 \/ v = 1).
Proof.
  intros e s s0 t0 e' st report Hprobe.
  destruct (probe_success_inv e s s0 t0 Hprobe) as (Hk & Hu & Hi & Hr).
  rewrite (probe_registered e s Hk Hu Hi Hr) in Hprobe.
  inversion Hprobe; subst s0 t0; clear Hprobe.
  destruct (urb_complete_run e' _ _ _ _ st report
              (probed_attached (usb_path e) ADDR)) as [Hrun _].
  exists (sample_input 0). do 2 eexists.
  split; [reflexivity | ]. split; [now left | ]. split; [exact Hrun | ].
  intros code v Hin. now apply ep_irq_calls_keys in Hin.
Qed.

Lemma ep_irq_reports_declared_keys_witness :
  exists i s1 t,
    input_mem (sample_state 0 (report_of 0) 1 0) = Some i
    /\ In EV_KEY (evbit i)
    /\ urb_complete 0 (report_of 0x21) (sample_env 0 0)
                    (sample_state 0 (report_of 0) 1 0)
       = Some (tt, s1, t)
    /\ forall code v,
         In (Input_report_key code v) t ->
         In code (keybit i) /\ (v = 0 \/ v = 1).
Proof.
  apply (ep_irq_reports_declared_keys (sample_env 0 0) unbound _
           [ Kzalloc ADDR; Usb_get_dev; Usb_alloc_urb ADDR
           ; Input_allocate_device ADDR; Input_register_device 0
           ; Dev_info "Device attached." ]).
  reflexivity.
Defined.

(** X5: when one of the three allocations of probe fails, probe returns
    -ENOMEM without asking for the registration, and leaves the driver
    data of the interface and the input device as they were; if it was the
    session itself that could not be allocated nothing changes at all,
    otherwise the session storage is freed again. *)
Theorem probe_allocation_failure :
  forall e s,
    kzalloc_ok e && usb_alloc_urb_ok e && input_allocate_device_ok e
    = false ->
    exists s' t,
      umlaut_kb_probe e s = Some (- ENOMEM, s', t)
      /\ intfdata s' = intfdata s
      /\ input_mem s' = input_mem s
      /\ (forall r, ~ In (Input_register_device r) t)
      /\ submissions t = []
      /\ (kzalloc_ok e = false -> s' = s /\ t = [Kzalloc NULL])
      /\ (kzalloc_ok e = true -> dev_mem s' = None /\ In Kfree t).
Proof.
  intros e s H.
  assert (Hno : forall (t : list call),
             Forall (fun c => match c with
                              | Input_register_device _ => False
                              | _ => True
                              end) t ->
             forall r, ~ In (Input_register_device r) t).
  { intros t Hall r Hin. rewrite Forall_forall in Hall.
    apply (Hall _ Hin). }
  destruct (kzalloc_ok e) eqn:Hk;
    [destruct (usb_alloc_urb_ok e) eqn:Hu;
     [destruct (input_allocate_device_ok e) eqn:Hi;
      [discriminate H | ] | ] | ].
  - do 2 eexists. split; [apply (probe_no_input e s Hk Hu Hi) | ].
    destruct s. repeat split; try discriminate.
    + apply Hno. repeat constructor.
    + cbn. tauto.
  - do 2 eexists. split; [apply (probe_no_urb e s Hk Hu) | ].
    destruct s. repeat split; try discriminate.
    + apply Hno. repeat constructor.
    + cbn. tauto.
  - do 2 eexists. split; [apply (probe_no_memory e s Hk) | ].
    repeat split; try discriminate.
    apply Hno. repeat constructor.
Qed.

Lemma probe_allocation_failure_witness :
  exists s' t,
    umlaut_kb_probe (mk_env true true false 0 0 0 "usb-0000:00:14.0-2")
                    unbound
    = Some (- ENOMEM, s', t)
    /\ intfdata s' = NULL
    /\ input_mem s' = None
    /\ (forall r, ~ In (Input_register_device r) t)
    /\ submissions t = []
    /\ dev_mem s' = None /\ In Kfree t.
Proof.
  destruct (probe_allocation_failure
              (mk_env true true false 0 0 0 "usb-0000:00:14.0-2")
              unbound eq_refl)
    as (s' & t & Hrun & Hp & Hi & Hreg & Hsub & _ & Hfree).
  exists s', t. repeat split; try assumption; now apply Hfree.
Defined.

(** X6: probe always returns, submits no transfer, and never leaks.
    When it returns 0 the trace holds one of each of its four resources
    (session storage, reference on the USB device, URB, input device);
    when it returns an error, whichever step failed, every one it took
    has been given back. *)
Theorem probe_holds_all_or_nothing :
  forall e s,
    exists r s' t,
      umlaut_kb_probe e s = Some (r, s', t)
      /\ submissions t = []
      /\ (r = 0 -> resources_held t = [1; 1; 1; 1])
      /\ (r <> 0 -> resources_held t = [0; 0; 0; 0]).
Proof.
  intros e s.
  destruct (kzalloc_ok e) eqn:Hk;
    [destruct (usb_alloc_urb_ok e) eqn:Hu;
     [destruct (input_allocate_device_ok e) eqn:Hi;
      [destruct (Z.eq_dec (input_register_device_ret e) 0) as [Hr | Hr]
      | ] | ] | ].
  - do 3 eexists. split; [apply (probe_registered e s Hk Hu Hi Hr) | ].
    repeat split. intros H. contradiction.
  - do 3 eexists. split; [apply (probe_not_registered e s Hk Hu Hi Hr) | ].
    repeat split. intros H. contradiction.
  - do 3 eexists. split; [apply (probe_no_input e s Hk Hu Hi) | ].
    repeat split. discriminate.
  - do 3 eexists. split; [apply (probe_no_urb e s Hk Hu) | ].
    repeat split. discriminate.
  - do 3 eexists. split; [apply (probe_no_memory e s Hk) | ].
    repeat split. discriminate.
Qed.

(** X7: probe stores the session pointer in the interface before it
    registers the input device and its error path does not take it back:
    after a failed registration the session storage is freed while the
    driver data of the interface still points at it. *)
Theorem probe_failed_registration_leaves_intfdata :
  forall e s,
    kzalloc_ok e = true ->
    usb_alloc_urb_ok e = true ->
    input_allocate_device_ok e = true ->
    input_register_device_ret e <> 0 ->
    exists s' t,
      umlaut_kb_probe e s = Some (input_register_device_ret e, s', t)
      /\ dev_mem s' = None
      /\ intfdata s' = ADDR.
Proof.
  intros e s Hk Hu Hi Hr.
  do 2 eexists. split; [apply (probe_not_registered e s Hk Hu Hi Hr) | ].
  split; reflexivity.
Qed.

Lemma probe_failed_registration_leaves_intfdata_witness :
  exists s' t,
    umlaut_kb_probe (mk_env true true true (- ENOMEM) 0 0 "usb-0000:00:14.0-2")
                    unbound
    = Some (- ENOMEM, s', t)
    /\ dev_mem s' = None
    /\ intfdata s' = ADDR.
Proof.
  apply (probe_failed_registration_leaves_intfdata
           (mk_env true true true (- ENOMEM) 0 0 "usb-0000:00:14.0-2")
           unbound eq_refl eq_refl eq_refl).
  discriminate.
Defined.

(** ** disconnect *)

(** X8: disconnect of a bound, attached session takes the mutex, clears
    the driver data of the interface, unregisters the input device, frees
    the URB and gives the mutex back.  It neither drops a reference nor
    frees the session: the session data stay exactly as they were, the
    pointer to the freed URB included.  From then on suspend and resume
    find no session and return -ENODEV without a call. *)
Theorem disconnect_unbinds :
  forall e s d i u,
    attached s d i u ->
    intfdata s = ADDR ->
    exists s',
      umlaut_kb_disconnect e s
      = Some (tt, s',
              [ Mutex_lock; Input_unregister_device
              ; Usb_free_urb (bulk_in_urb d); Mutex_unlock
              ; Dev_info "Device disconnected." ])
      /\ intfdata s' = NULL
      /\ dev_mem s' = Some d
      /\ input_mem s' = Some (with_registered false i)
      /\ (bulk_in_urb d = ADDR -> urb_mem s' = None)
      /\ forall e',
           umlaut_kb_suspend e' s' = Some (- ENODEV, s', [])
           /\ umlaut_kb_resume e' s' = Some (- ENODEV, s', []).
Proof.
  intros e s d i u Hatt Hp. revert Hp.
  open_session Hatt. intros ->.
  destruct bulk_in_urb0; eexists; (split; [reflexivity | ]);
    repeat split; discriminate.
Qed.

Lemma disconnect_unbinds_witness :
  exists s',
    umlaut_kb_disconnect (sample_env 0 0) (sample_state 0 (report_of 0) 1 0)
    = Some (tt, s',
            [ Mutex_lock; Input_unregister_device
            ; Usb_free_urb ADDR; Mutex_unlock
            ; Dev_info "Device disconnected." ])
    /\ intfdata s' = NULL
    /\ dev_mem s' = Some (sample_data (report_of 0) 1)
    /\ input_mem s' = Some (with_registered false (sample_input 0))
    /\ (ADDR = ADDR -> urb_mem s' = None)
    /\ forall e',
         umlaut_kb_suspend e' s' = Some (- ENODEV, s', [])
         /\ umlaut_kb_resume e' s' = Some (- ENODEV, s', []).
Proof.
  apply (disconnect_unbinds (sample_env 0 0) _ _ _ _
           (sample_attached 0 (report_of 0) 1 0 one_holder)).
  reflexivity.
Defined.

(** ** Sequences of entry points *)

Lemma attached_with_kref :
  forall s d i u k,
    attached s d i u ->
    0 < k < REFCOUNT_MAX ->
    attached (set_dev_mem (Some (with_kref k d)) s) (with_kref k d) i u.
Proof.
  intros s d i u k [Hd Hi Hu Hin Hctx Hdrv Hk] Hr.
  constructor; cbn; solve [reflexivity | assumption].
Qed.

Lemma close_held :
  forall e s d i u,
    attached s d i u ->
    1 < kref d ->
    umlaut_kb_close e s
    = Some (tt, set_dev_mem (Some (with_kref (kref d - 1) d)) s,
            [Usb_kill_urb; Usb_autopm_put_interface]).
Proof.
  intros e s d i u Hatt Hk. revert Hk. open_session Hatt. intros Hk.
  unfold umlaut_kb_close, input_get_drvdata, kref_put, umlaut_kb_delete.
  unfold_K. cbn -[Z.eqb].
  destruct (Z.eqb_spec (kref0 - 1) 0) as [Hz | Hnz]; [lia | reflexivity].
Qed.

Lemma open_succeeds_spec :
  forall e,
    open_succeeds e = true
    <-> usb_autopm_get_interface_ret e = 0 /\ usb_submit_urb_ret e = 0.
Proof.
  intro e. unfold open_succeeds. now rewrite andb_true_iff, !Z.eqb_eq.
Qed.

Lemma open_step :
  forall e s d i u,
    attached s d i u ->
    exists r t,
      umlaut_kb_open e s
      = Some (r,
              (if open_succeeds e
               then set_dev_mem (Some (with_kref (kref d + 1) d)) s
               else s),
              t)
      /\ ~ In Kfree t
      /\ (r = 0 <-> open_succeeds e = true).
Proof.
  intros e s d i u Hatt.
  destruct (open_succeeds e) eqn:Ho.
  - apply open_succeeds_spec in Ho. destruct Ho as [Ha Hb].
    do 2 eexists. split; [apply (open_success e s d i u Hatt Ha Hb) | ].
    split; [ | tauto].
    cbn. intros [H | [H | []]]; discriminate H.
  - destruct (Z.eq_dec (usb_autopm_get_interface_ret e) 0) as [Ha | Ha].
    + assert (Hb : usb_submit_urb_ret e <> 0).
      { intro Hb. unfold open_succeeds in Ho.
        rewrite Ha, Hb in Ho. discriminate Ho. }
      do 2 eexists.
      split; [apply (open_submit_failure e s d i u Hatt Ha Hb) | ].
      split; [ | split; [contradiction | discriminate]].
      cbn. intros [H | [H | [H | []]]]; discriminate H.
    + do 2 eexists.
      split; [apply (open_power_failure e s d i u Hatt Ha) | ].
      split; [ | split; [contradiction | discriminate]].
      cbn. intros [H | [H | []]]; discriminate H.
Qed.

Lemma suspend_resume_step :
  forall e s d i u,
    attached s d i u ->
    exists rs ts rr tr,
      umlaut_kb_suspend e s = Some (rs, s, ts)
      /\ umlaut_kb_resume e s = Some (rr, s, tr)
      /\ ~ In Kfree ts /\ ~ In Kfree tr.
Proof.
  intros e s d i u Hatt.
  destruct (intfdata s) eqn:Hp.
  - destruct (suspend_resume_unbound e s Hp) as [Hs Hr].
    do 4 eexists. split; [exact Hs | split; [exact Hr | ]].
    split; intros [].
  - destruct (Z.eq_dec (users i) 0) as [Hus | Hus].
    + destruct (suspend_resume_idle e s d i u Hp Hatt Hus) as [Hs Hr].
      do 4 eexists. split; [exact Hs | split; [exact Hr | ]].
      split; intros [].
    + destruct (suspend_resume_listening e s d i u Hp Hatt Hus) as [Hs Hr].
      do 4 eexists. split; [exact Hs | split; [exact Hr | ]].
      split; intros [H | []]; discriminate H.
Qed.

Lemma ep_irq_calls_no_kfree :
  forall st c r, ~ In Kfree (ep_irq_calls st c r).
Proof.
  intros st c r. unfold ep_irq_calls, decode_calls, resubmit_calls.
  destruct (st =? 0), (ignored_status st), (in_window c), (c =? 0),
    (r =? 0); cbn; intros H;
    repeat (destruct H as [H | H]; [discriminate H | ]); exact H.
Qed.

(** One entry point on an attached session whose count leaves room. *)
Lemma run_op_step :
  forall o e s d i u,
    attached s d i u ->
    kref d + 1 < REFCOUNT_MAX ->
    (o = Op_close -> 1 < kref d) ->
    exists s1 t1 d1 u1,
      run_op o e s = Some (tt, s1, t1)
      /\ attached s1 d1 i u1
      /\ kref d1
         = kref d
           + match o with
             | Op_open => if open_succeeds e then 1 else 0
             | Op_close => - 1
             | _ => 0
             end
      /\ ~ In Kfree t1
      /\ intfdata s1 = intfdata s.
Proof.
  intros o e s d i u Hatt Hroom Hclose.
  pose proof (att_kref _ _ _ _ Hatt) as Hk.
  destruct o as [ | | st report | | ]; unfold run_op.
  - destruct (open_step e s d i u Hatt) as (r & t & Hrun & Hfree & _).
    unfold bind, ret. rewrite Hrun. rewrite app_nil_r.
    destruct (open_succeeds e).
    + exists (set_dev_mem (Some (with_kref (kref d + 1) d)) s), t,
        (with_kref (kref d + 1) d), u.
      split; [reflexivity | ].
      split; [apply attached_with_kref; [assumption | lia] | ].
      split; [reflexivity | ]. split; [assumption | reflexivity].
    + exists s, t, d, u.
      split; [reflexivity | ]. split; [assumption | ].
      split; [lia | ]. split; [assumption | reflexivity].
  - rewrite (close_held e s d i u Hatt (Hclose eq_refl)).
    specialize (Hclose eq_refl).
    exists (set_dev_mem (Some (with_kref (kref d - 1) d)) s),
      [Usb_kill_urb; Usb_autopm_put_interface],
      (with_kref (kref d - 1) d), u.
    split; [reflexivity | ].
    split; [apply attached_with_kref; [assumption | lia] | ].
    split; [reflexivity | ]. split; [ | reflexivity].
    cbn. intros [H | [H | []]]; discriminate H.
  - destruct (urb_complete_run e s d i u st report Hatt) as [Hrun Hatt'].
    do 4 eexists. split; [exact Hrun | ]. split; [exact Hatt' | ].
    split; [cbn; lia | ]. split; [ | reflexivity].
    apply ep_irq_calls_no_kfree.
  - destruct (suspend_resume_step e s d i u Hatt)
      as (rs & ts & rr & tr & Hs & _ & Hfs & _).
    unfold bind, ret. rewrite Hs, app_nil_r.
    exists s, ts, d, u.
    split; [reflexivity | ]. split; [assumption | ].
    split; [lia | ]. split; [assumption | reflexivity].
  - destruct (suspend_resume_step e s d i u Hatt)
      as (rs & ts & rr & tr & _ & Hr & _ & Hfr).
    unfold bind, ret. rewrite Hr, app_nil_r.
    exists s, tr, d, u.
    split; [reflexivity | ]. split; [assumption | ].
    split; [lia | ]. split; [assumption | reflexivity].
Qed.

(** X9: the session outlives every consumer.  Take an attached session
    with [h] consumers holding it besides at least one other reference
    (the one probe took), and any sequence of opens, closes, completions,
    suspends and resumes in which a close only follows an open that
    returned 0.  Every call returns, the session stays attached, its count
    less the consumers stays what it was, and the session storage is never
    freed: none of these entry points drops the reference of probe. *)
Theorem session_outlives_consumers :
  forall l s d i u h,
    attached s d i u ->
    Z.of_nat h < kref d ->
    kref d + Z.of_nat (List.length l) < REFCOUNT_MAX ->
    well_paired h l = true ->
    exists s' t d' u',
      run_ops l s = Some (s', t)
      /\ attached s' d' i u'
      /\ kref d' - Z.of_nat (holders_after h l) = kref d - Z.of_nat h
      /\ ~ In Kfree t
      /\ intfdata s' = intfdata s.
Proof.
  induction l as [ | [o e] l IH]; intros s d i u h Hatt Hh Hroom Hwp.
  - exists s, [], d, u.
    split; [reflexivity | ]. split; [assumption | ].
    split; [reflexivity | ]. split; [intros [] | reflexivity].
  - cbn [List.length] in Hroom. rewrite Nat2Z.inj_succ in Hroom.
    assert (Hclose : o = Op_close -> 1 < kref d).
    { intros ->. cbn in Hwp. destruct h; [discriminate Hwp | lia]. }
    destruct (run_op_step o e s d i u Hatt ltac:(lia) Hclose)
      as (s1 & t1 & d1 & u1 & Hrun & Hatt1 & Hk1 & Hfree1 & Hp1).
    set (h1 := match o with
               | Op_open => if open_succeeds e then S h else h
               | Op_close => pred h
               | _ => h
               end).
    assert (Hwp1 : well_paired h1 l = true).
    { subst h1. destruct o; cbn in Hwp; try assumption.
      destruct h; [discriminate Hwp | exact Hwp]. }
    assert (Hafter : holders_after h ((o, e) :: l) = holders_after h1 l).
    { subst h1. destruct o; reflexivity. }
    assert (Hh1 : Z.of_nat h1 - Z.of_nat h = kref d1 - kref d).
    { subst h1. rewrite Hk1. destruct o; try lia.
      - destruct (open_succeeds e); lia.
      - cbn in Hwp. destruct h; [discriminate Hwp | ].
        change (Init.Nat.pred (S h)) with h. lia. }
    assert (Hup : kref d1 <= kref d + 1).
    { rewrite Hk1. destruct o; try lia. destruct (open_succeeds e); lia. }
    destruct (IH s1 d1 i u1 h1 Hatt1 ltac:(lia) ltac:(lia) Hwp1)
      as (s2 & t2 & d2 & u2 & Hrun2 & Hatt2 & Hk2 & Hfree2 & Hp2).
    exists s2, (t1 ++ t2), d2, u2.
    split; [cbn [run_ops]; rewrite Hrun, Hrun2; reflexivity | ].
    split; [exact Hatt2 | ].
    split; [rewrite Hafter; lia | ].
    split; [ | congruence].
    intros Hin. apply in_app_or in Hin. tauto.
Qed.

Lemma session_outlives_consumers_witness :
  exists s' t d' u',
    run_ops [ (Op_open, sample_env 0 (- ENOMEM))
            ; (Op_open, sample_env 0 0)
            ; (Op_complete 0 (report_of 0x1E), sample_env 0 0)
            ; (Op_suspend, sample_env 0 0)
            ; (Op_resume, sample_env 0 0)
            ; (Op_complete (- ESHUTDOWN) (report_of 0), sample_env 0 0)
            ; (Op_close, sample_env 0 0) ]
            (sample_state 0 (report_of 0) 1 1)
    = Some (s', t)
    /\ attached s' d' (sample_input 1) u'
    /\ kref d' - 0 = 1 - 0
    /\ ~ In Kfree t
    /\ intfdata s' = ADDR.
Proof.
  apply (session_outlives_consumers
           [ (Op_open, sample_env 0 (- ENOMEM))
           ; (Op_open, sample_env 0 0)
           ; (Op_complete 0 (report_of 0x1E), sample_env 0 0)
           ; (Op_suspend, sample_env 0 0)
           ; (Op_resume, sample_env 0 0)
           ; (Op_complete (- ESHUTDOWN) (report_of 0), sample_env 0 0)
           ; (Op_close, sample_env 0 0) ]
           _ _ _ _ 0%nat
           (sample_attached 0 (report_of 0) 1 1 one_holder)).
  - reflexivity.
  - reflexivity.
  - reflexivity.
Defined.

(** ** open and close, together and at their edges *)

(** X10: an open that returns 0 followed by a close brings the session
    back to where it was, reference count included, and leaves no power
    guarantee held: the four calls are the power request, the submission,
    the kill of the URB and the power release. *)
Theorem open_close_round_trip :
  forall e s d i u,
    attached s d i u ->
    usb_autopm_get_interface_ret e = 0 ->
    usb_submit_urb_ret e = 0 ->
    exists t,
      (r <- umlaut_kb_open ;; umlaut_kb_close) e s = Some (tt, s, t)
      /\ t = [ Usb_autopm_get_interface 0; Usb_submit_urb 0
             ; Usb_kill_urb; Usb_autopm_put_interface ]
      /\ power_held t = 0.
Proof.
  intros e s d i u Hatt Ha Hb.
  eexists. split; [ | split; reflexivity].
  open_session Hatt.
  unfold umlaut_kb_open, umlaut_kb_close, input_get_drvdata,
    usb_autopm_get_interface, usb_submit_urb, kref_get, kref_put,
    umlaut_kb_delete, usb_kill_urb, usb_autopm_put_interface.
  unfold_K. cbn -[Z.eqb]. rewrite Ha, Z.eqb_refl. cbn -[Z.eqb].
  rewrite Hb, Z.eqb_refl. cbn -[Z.eqb].
  rewrite Z.add_simpl_r.
  destruct (Z.eqb_spec kref0 0) as [Hz | Hnz]; [lia | reflexivity].
Qed.

Lemma open_close_round_trip_witness :
  exists t,
    (r <- umlaut_kb_open ;; umlaut_kb_close)
      (sample_env 0 0) (sample_state 0 (report_of 0) 1 0)
    = Some (tt, sample_state 0 (report_of 0) 1 0, t)
    /\ t = [ Usb_autopm_get_interface 0; Usb_submit_urb 0
           ; Usb_kill_urb; Usb_autopm_put_interface ]
    /\ power_held t = 0.
Proof.
  apply (open_close_round_trip (sample_env 0 0) _ _ _ _
           (sample_attached 0 (report_of 0) 1 0 one_holder));
    reflexivity.
Defined.

(** X11: an input device that carries no session data is left alone.
    Open returns -ENODEV and close returns; neither calls into the kernel,
    and neither reads or changes the session, the URB or the interface,
    whatever state they are in. *)
Theorem open_close_without_session :
  forall e s i,
    input_mem s = Some i ->
    drvdata i = NULL ->
    umlaut_kb_open e s = Some (- ENODEV, s, [])
    /\ umlaut_kb_close e s = Some (tt, s, []).
Proof.
  intros e s i Hi Hdrv. split.
  - apply (open_no_session e s i Hi Hdrv).
  - apply (close_no_session e s i Hi Hdrv).
Qed.

Lemma open_close_without_session_witness :
  umlaut_kb_open (sample_env 0 0) (mk_kstate None (Some zero_input) None NULL)
  = Some (- ENODEV, mk_kstate None (Some zero_input) None NULL, [])
  /\ umlaut_kb_close (sample_env 0 0)
                     (mk_kstate None (Some zero_input) None NULL)
     = Some (tt, mk_kstate None (Some zero_input) None NULL, []).
Proof.
  apply (open_close_without_session (sample_env 0 0) _ zero_input);
    reflexivity.
Defined.

(** X12: an open whose power request is denied stops there.  It returns
    the error of the request after logging it, submits no transfer, holds
    no power guarantee and leaves the session as it was. *)
Theorem open_power_denied :
  forall e s d i u,
    attached s d i u ->
    usb_autopm_get_interface_ret e <> 0 ->
    exists t,
      umlaut_kb_open e s = Some (usb_autopm_get_interface_ret e, s, t)
      /\ submissions t = []
      /\ power_held t = 0
      /\ In (Dev_err "Could not get interface, error %d"
                     [usb_autopm_get_interface_ret e]) t.
Proof.
  intros e s d i u Hatt Ha.
  eexists. split; [apply (open_power_failure e s d i u Hatt Ha) | ].
  apply Z.eqb_neq in Ha. cbn -[Z.eqb]. rewrite Ha.
  repeat split. right. now left.
Qed.

Lemma open_power_denied_witness :
  exists t,
    umlaut_kb_open (sample_env (- 5) 0) (sample_state 0 (report_of 0) 1 0)
    = Some (- 5, sample_state 0 (report_of 0) 1 0, t)
    /\ submissions t = []
    /\ power_held t = 0
    /\ In (Dev_err "Could not get interface, error %d" [- 5]) t.
Proof.
  apply (open_power_denied (sample_env (- 5) 0) _ _ _ _
           (sample_attached 0 (report_of 0) 1 0 one_holder)).
  discriminate.
Defined.

(** X13: an open whose power request is granted and whose submission
    fails returns the error of the submission, logs it, and leaves the
    session and its reference count as they were; it makes no call that
    gives the power guarantee back, so the trace still holds one. *)
Theorem open_submit_failure_holds_power :
  forall e s d i u,
    attached s d i u ->
    usb_autopm_get_interface_ret e = 0 ->
    usb_submit_urb_ret e <> 0 ->
    exists t,
      umlaut_kb_open e s = Some (usb_submit_urb_ret e, s, t)
      /\ submissions t = [Usb_submit_urb (usb_submit_urb_ret e)]
      /\ ~ In Usb_autopm_put_interface t
      /\ power_held t = 1.
Proof.
  intros e s d i u Hatt Ha Hb.
  eexists. split; [apply (open_submit_failure e s d i u Hatt Ha Hb) | ].
  split; [reflexivity | ]. split; [ | reflexivity].
  cbn. intros [H | [H | [H | []]]]; discriminate H.
Qed.

Lemma open_submit_failure_holds_power_witness :
  exists t,
    umlaut_kb_open (sample_env 0 (- 19)) (sample_state 0 (report_of 0) 2 1)
    = Some (- 19, sample_state 0 (report_of 0) 2 1, t)
    /\ submissions t = [Usb_submit_urb (- 19)]
    /\ ~ In Usb_autopm_put_interface t
    /\ power_held t = 1.
Proof.
  apply (open_submit_failure_holds_power (sample_env 0 (- 19)) _ _ _ _
           (sample_attached 0 (report_of 0) 2 1 two_holders)).
  - reflexivity.
  - discriminate.
Defined.

(** ** Runs of completions *)

Lemma run_ops_app :
  forall l1 l2 s,
    run_ops (l1 ++ l2) s
    = match run_ops l1 s with
      | None => None
      | Some (s1, t1) =>
          match run_ops l2 s1 with
          | None => None
          | Some (s2, t2) => Some (s2, t1 ++ t2)
          end
      end.
Proof.
  induction l1 as [ | [o e] l1 IH]; intros l2 s; cbn [app run_ops].
  - destruct (run_ops l2 s) as [[s2 t2] | ]; reflexivity.
  - destruct (run_op o e s) as [[[[] s1] t1] | ]; [ | reflexivity].
    rewrite IH.
    destruct (run_ops l1 s1) as [[s2 t2] | ]; [ | reflexivity].
    destruct (run_ops l2 s2) as [[s3 t3] | ]; [ | reflexivity].
    now rewrite app_assoc.
Qed.

Lemma run_completions :
  forall l s d i u,
    attached s d i u ->
    exists s' t d' u',
      run_ops (completions l) s = Some (s', t)
      /\ attached s' d' i u'
      /\ forall code v,
           In (Input_report_key code v) t ->
           In code (KEY_RIGHTALT :: keycodes).
Proof.
  induction l as [ | [[st report] e] l IH]; intros s d i u Hatt.
  - exists s, [], d, u. split; [reflexivity | ]. split; [assumption | ].
    intros code v [].
  - destruct (urb_complete_run e s d i u st report Hatt) as [Hrun Hatt1].
    destruct (IH _ _ _ _ Hatt1) as (s2 & t2 & d2 & u2 & Hrun2 & Hatt2 & Hk).
    exists s2, (ep_irq_calls st (nth 2 report 0) (usb_submit_urb_ret e) ++ t2),
      d2, u2.
    split; [ | split; [exact Hatt2 | ]].
    + cbn [completions map run_ops run_op fst snd].
      rewrite Hrun. fold (completions l). rewrite Hrun2. reflexivity.
    + intros code v Hin. apply in_app_or in Hin. destruct Hin as [Hin | Hin].
      * now apply ep_irq_calls_keys in Hin.
      * now apply (Hk code v).
Qed.

Lemma keys_down_after_app :
  forall t1 t2 down,
    keys_down_after down (t1 ++ t2)
    = keys_down_after (keys_down_after down t1) t2.
Proof. intros. unfold keys_down_after. apply fold_left_app. Qed.

Lemma keys_down_after_incl :
  forall t down D,
    incl down D ->
    (forall code v, In (Input_report_key code v) t -> In code D) ->
    incl (keys_down_after down t) D.
Proof.
  induction t as [ | c t IH]; intros down D Hdown Ht; [exact Hdown | ].
  cbn [keys_down_after fold_left]. apply IH.
  - destruct c; cbn [press_or_release]; try exact Hdown.
    destruct (value =? 0).
    + intros x Hx. apply in_remove in Hx. now apply Hdown.
    + intros x [<- | Hx].
      * apply (Ht code value). now left.
      * apply in_remove in Hx. now apply Hdown.
  - intros code v Hin. apply (Ht code v). now right.
Qed.

Lemma release_all_keys :
  forall down r,
    incl down (KEY_RIGHTALT :: keycodes) ->
    keys_down_after down (ep_irq_calls 0 0 r) = [].
Proof.
  intros down r Hdown.
  assert (Hempty : forall l : list Z, (forall x, ~ In x l) -> l = []).
  { intros [ | x l] H; [reflexivity | ]. exfalso. apply (H x). now left. }
  apply Hempty. intros x Hx.
  unfold ep_irq_calls, resubmit_calls in Hx.
  assert (Hx' : In x (remove Z.eq_dec KEY_RIGHTALT
                        (remove Z.eq_dec KEY_S
                           (remove Z.eq_dec KEY_Y
                              (remove Z.eq_dec KEY_P
                                 (remove Z.eq_dec KEY_Q down)))))).
  { destruct (r =? 0); exact Hx. }
  clear Hx.
  apply in_remove in Hx'. destruct Hx' as [Hx' N1].
  apply in_remove in Hx'. destruct Hx' as [Hx' N2].
  apply in_remove in Hx'. destruct Hx' as [Hx' N3].
  apply in_remove in Hx'. destruct Hx' as [Hx' N4].
  apply in_remove in Hx'. destruct Hx' as [Hx' N5].
  apply Hdown in Hx'. cbn in Hx'.
  destruct Hx' as [H | [H | [H | [H | [H | []]]]]]; congruence.
Qed.

(** X14: no key stays stuck.  After any run of completions on an attached
    session, whatever their statuses and reports, one more completion with
    a successful status and scan code 0 leaves the sink with no key down. *)
Theorem release_leaves_no_key_down :
  forall l s d i u report e,
    attached s d i u ->
    nth 2 report 0 = 0 ->
    exists s' t,
      run_ops (completions l ++ [(Op_complete 0 report, e)]) s = Some (s', t)
      /\ keys_down_after [] t = [].
Proof.
  intros l s d i u report e Hatt Hc.
  destruct (run_completions l s d i u Hatt)
    as (s1 & t1 & d1 & u1 & Hrun1 & Hatt1 & Hk1).
  destruct (urb_complete_run e s1 d1 i u1 0 report Hatt1) as [Hrun2 _].
  rewrite Hc in Hrun2.
  do 2 eexists. split.
  - rewrite run_ops_app, Hrun1. cbn [run_ops run_op]. rewrite Hrun2.
    reflexivity.
  - rewrite keys_down_after_app, app_nil_r. apply release_all_keys.
    apply keys_down_after_incl; [intros x [] | exact Hk1].
Qed.

Lemma release_leaves_no_key_down_witness :
  exists s' t,
    run_ops (completions [ (0, report_of 0x1E, sample_env 0 0)
                         ; (0, report_of 0x20, sample_env 0 0)
                         ; (- 71, report_of 0x21, sample_env 0 (- 19)) ]
             ++ [(Op_complete 0 (report_of 0), sample_env 0 0)])
            (sample_state 0 (report_of 0) 2 1)
    = Some (s', t)
    /\ keys_down_after [] t = [].
Proof.
  apply (release_leaves_no_key_down
           [ (0, report_of 0x1E, sample_env 0 0)
           ; (0, report_of 0x20, sample_env 0 0)
           ; (- 71, report_of 0x21, sample_env 0 (- 19)) ]
           _ _ _ _ (report_of 0) (sample_env 0 0)
           (sample_attached 0 (report_of 0) 2 1 two_holders)).
  reflexivity.
Defined.

(** ** The power guarantee over a sequence *)

Lemma power_held_app :
  forall t1 t2, power_held (t1 ++ t2) = power_held t1 + power_held t2.
Proof.
  induction t1 as [ | c t1 IH]; intros t2; [reflexivity | ].
  destruct c; cbn [app power_held]; rewrite IH; lia.
Qed.

Lemma ep_irq_calls_power :
  forall st c r, power_held (ep_irq_calls st c r) = 0.
Proof.
  intros st c r. unfold ep_irq_calls, decode_calls, resubmit_calls.
  destruct (st =? 0), (ignored_status st), (in_window c), (c =? 0),
    (r =? 0); reflexivity.
Qed.

Lemma open_power :
  forall e s d i u,
    attached s d i u ->
    exists r s1 t,
      umlaut_kb_open e s = Some (r, s1, t)
      /\ power_held t
         = (if open_succeeds e then 1 else 0)
           + (if open_fails_at_submit e then 1 else 0).
Proof.
  intros e s d i u Hatt. unfold open_succeeds, open_fails_at_submit.
  destruct (Z.eqb_spec (usb_autopm_get_interface_ret e) 0) as [Ha | Ha];
    [destruct (Z.eqb_spec (usb_submit_urb_ret e) 0) as [Hb | Hb] | ].
  - do 3 eexists. split; [apply (open_success e s d i u Hatt Ha Hb) | ].
    reflexivity.
  - do 3 eexists. split; [apply (open_submit_failure e s d i u Hatt Ha Hb) | ].
    reflexivity.
  - do 3 eexists. split; [apply (open_power_failure e s d i u Hatt Ha) | ].
    apply Z.eqb_neq in Ha. cbn -[Z.eqb]. now rewrite Ha.
Qed.

Lemma run_op_power :
  forall o e s d i u s1 t1,
    attached s d i u ->
    (o = Op_close -> 1 < kref d) ->
    run_op o e s = Some (tt, s1, t1) ->
    power_held t1
    = match o with
      | Op_open =>
          (if open_succeeds e then 1 else 0)
          + (if open_fails_at_submit e then 1 else 0)
      | Op_close => - 1
      | _ => 0
      end.
Proof.
  intros o e s d i u s1 t1 Hatt Hclose Hrun.
  destruct o as [ | | st report | | ]; unfold run_op in Hrun.
  - destruct (open_power e s d i u Hatt) as (r & s2 & t & Hopen & Hp).
    unfold bind, ret in Hrun. rewrite Hopen, app_nil_r in Hrun.
    inversion Hrun; subst. exact Hp.
  - rewrite (close_held e s d i u Hatt (Hclose eq_refl)) in Hrun.
    inversion Hrun; subst. reflexivity.
  - destruct (urb_complete_run e s d i u st report Hatt) as [Hc _].
    rewrite Hc in Hrun. inversion Hrun; subst. apply ep_irq_calls_power.
  - destruct (intfdata s) eqn:Hp;
      [ | destruct (Z.eq_dec (users i) 0) as [Hus | Hus]].
    + destruct (suspend_resume_unbound e s Hp) as [Hs _].
      unfold bind, ret in Hrun. rewrite Hs in Hrun.
      inversion Hrun; subst. reflexivity.
    + destruct (suspend_resume_idle e s d i u Hp Hatt Hus) as [Hs _].
      unfold bind, ret in Hrun. rewrite Hs in Hrun.
      inversion Hrun; subst. reflexivity.
    + destruct (suspend_resume_listening e s d i u Hp Hatt Hus) as [Hs _].
      unfold bind, ret in Hrun. rewrite Hs in Hrun.
      inversion Hrun; subst. reflexivity.
  - destruct (intfdata s) eqn:Hp;
      [ | destruct (Z.eq_dec (users i) 0) as [Hus | Hus]].
    + destruct (suspend_resume_unbound e s Hp) as [_ Hr].
      unfold bind, ret in Hrun. rewrite Hr in Hrun.
      inversion Hrun; subst. reflexivity.
    + destruct (suspend_resume_idle e s d i u Hp Hatt Hus) as [_ Hr].
      unfold bind, ret in Hrun. rewrite Hr in Hrun.
      inversion Hrun; subst. reflexivity.
    + destruct (suspend_resume_listening e s d i u Hp Hatt Hus) as [_ Hr].
      unfold bind, ret in Hrun. rewrite Hr in Hrun.
      inversion Hrun; subst. reflexivity.
Qed.

(** X15: the account of the power guarantee.  Over any sequence of
    opens, closes, completions, suspends and resumes on an attached
    session in which a close only follows an open that returned 0, the
    power guarantees the trace holds are one for each consumer that came
    to hold the session, plus one for every open that was granted power
    and then failed to submit. *)
Theorem power_held_by_consumers_and_failed_opens :
  forall l s d i u h,
    attached s d i u ->
    Z.of_nat h < kref d ->
    kref d + Z.of_nat (List.length l) < REFCOUNT_MAX ->
    well_paired h l = true ->
    exists s' t,
      run_ops l s = Some (s', t)
      /\ power_held t
         = Z.of_nat (holders_after h l) - Z.of_nat h
           + Z.of_nat (opens_failed_at_submit l).
Proof.
  induction l as [ | [o e] l IH]; intros s d i u h Hatt Hh Hroom Hwp.
  - exists s, []. split; [reflexivity | ]. cbn. lia.
  - cbn [List.length] in Hroom. rewrite Nat2Z.inj_succ in Hroom.
    assert (Hclose : o = Op_close -> 1 < kref d).
    { intros ->. cbn in Hwp. destruct h; [discriminate Hwp | lia]. }
    destruct (run_op_step o e s d i u Hatt ltac:(lia) Hclose)
      as (s1 & t1 & d1 & u1 & Hrun & Hatt1 & Hk1 & _ & _).
    pose proof (run_op_power o e s d i u s1 t1 Hatt Hclose Hrun) as Hp1.
    destruct o.
    + cbn in Hwp. cbn [holders_after opens_failed_at_submit].
      assert (Hh1 : Z.of_nat (if open_succeeds e then S h else h) < kref d1).
      { rewrite Hk1. destruct (open_succeeds e); lia. }
      assert (Hr1 : kref d1 + Z.of_nat (List.length l) < REFCOUNT_MAX).
      { rewrite Hk1. destruct (open_succeeds e); lia. }
      destruct (IH s1 d1 i u1 _ Hatt1 Hh1 Hr1 Hwp)
        as (s2 & t2 & Hrun2 & Hp2).
      exists s2, (t1 ++ t2).
      split; [cbn [run_ops]; rewrite Hrun, Hrun2; reflexivity | ].
      rewrite power_held_app, Hp1, Hp2.
      destruct (open_succeeds e), (open_fails_at_submit e); lia.
    + cbn in Hwp. destruct h as [ | h']; [discriminate Hwp | ].
      cbn [holders_after opens_failed_at_submit pred].
      destruct (IH s1 d1 i u1 h' Hatt1 ltac:(lia) ltac:(lia) Hwp)
        as (s2 & t2 & Hrun2 & Hp2).
      exists s2, (t1 ++ t2).
      split; [cbn [run_ops]; rewrite Hrun, Hrun2; reflexivity | ].
      rewrite power_held_app, Hp1, Hp2. lia.
    + cbn in Hwp. cbn [holders_after opens_failed_at_submit].
      destruct (IH s1 d1 i u1 h Hatt1 ltac:(lia) ltac:(lia) Hwp)
        as (s2 & t2 & Hrun2 & Hp2).
      exists s2, (t1 ++ t2).
      split; [cbn [run_ops]; rewrite Hrun, Hrun2; reflexivity | ].
      rewrite power_held_app, Hp1, Hp2. lia.
    + cbn in Hwp. cbn [holders_after opens_failed_at_submit].
      destruct (IH s1 d1 i u1 h Hatt1 ltac:(lia) ltac:(lia) Hwp)
        as (s2 & t2 & Hrun2 & Hp2).
      exists s2, (t1 ++ t2).
      split; [cbn [run_ops]; rewrite Hrun, Hrun2; reflexivity | ].
      rewrite power_held_app, Hp1, Hp2. lia.
    + cbn in Hwp. cbn [holders_after opens_failed_at_submit].
      destruct (IH s1 d1 i u1 h Hatt1 ltac:(lia) ltac:(lia) Hwp)
        as (s2 & t2 & Hrun2 & Hp2).
      exists s2, (t1 ++ t2).
      split; [cbn [run_ops]; rewrite Hrun, Hrun2; reflexivity | ].
      rewrite power_held_app, Hp1, Hp2. lia.
Qed.

Lemma power_held_by_consumers_and_failed_opens_witness :
  exists s' t,
    run_ops [ (Op_open, sample_env 0 (- ENOMEM))
            ; (Op_open, sample_env (- 5) 0)
            ; (Op_open, sample_env 0 0)
            ; (Op_complete 0 (report_of 0x1E), sample_env 0 0)
            ; (Op_close, sample_env 0 0)
            ; (Op_open, sample_env 0 (- 19)) ]
            (sample_state 0 (report_of 0) 1 1)
    = Some (s', t)
    /\ power_held t = 0 - 0 + 2.
Proof.
  apply (power_held_by_consumers_and_failed_opens
           [ (Op_open, sample_env 0 (- ENOMEM))
           ; (Op_open, sample_env (- 5) 0)
           ; (Op_open, sample_env 0 0)
           ; (Op_complete 0 (report_of 0x1E), sample_env 0 0)
           ; (Op_close, sample_env 0 0)
           ; (Op_open, sample_env 0 (- 19)) ]
           _ _ _ _ 0%nat
           (sample_attached 0 (report_of 0) 1 1 one_holder));
    reflexivity.
Defined.
